(** * Finance-App: the portfolio / ledger update engine

    A shallow embedding of [src/database/db_manager.py] (class [Database]:
    [update_portfolio], [update_crypto_portfolio], [get_portfolio]) and of the
    buy / sell form handlers of [src/views/trading.py], followed by the
    properties of the ledger that the specification states.

    Modelling conventions.
    - The four SQLite tables are lists of rows in rowid order.  No table has a
      uniqueness constraint on (user_id, symbol), so a table is an association
      list that may hold duplicates: [fetchone] sees the first matching row,
      [UPDATE] and [DELETE] act on every matching row, [INSERT] appends.
    - Only the columns a statement names are kept in a row; the columns the
      storage engine fills by itself ([id AUTOINCREMENT], [timestamp DEFAULT
      CURRENT_TIMESTAMP]) are not represented.
    - [REAL] columns and Python floats are exact rationals [Q]: rounding,
      infinities and NaN are outside the model.  Equality of amounts is
      therefore [Qeq] ([==]); a division by zero raises [ZeroDivisionError]
      as it does in Python. *)

From Stdlib Require Import ZArith QArith Qfield List String Bool Lqa.
Import ListNotations.

Open Scope Q_scope.

(** ** Tables *)

Module Schema.

(** [users (id, name, email, password, balance REAL DEFAULT 100000.0)] *)
Record user_row : Type := mk_user {
  u_id : Z;
  u_name : string;
  u_email : string;
  u_password : string;
  u_balance : Q
}.

(** [portfolio (user_id, symbol, shares REAL, avg_price REAL)] *)
Record portfolio_row : Type := mk_portfolio {
  p_user_id : Z;
  p_symbol : string;
  p_shares : Q;
  p_avg_price : Q
}.

(** [transactions (user_id, symbol, transaction_type, shares, price)] *)
Record transaction_row : Type := mk_transaction {
  t_user_id : Z;
  t_symbol : string;
  t_type : string;
  t_shares : Q;
  t_price : Q
}.

(** [crypto_portfolio (user_id, symbol, crypto_amount REAL, avg_price REAL)] *)
Record crypto_row : Type := mk_crypto {
  c_user_id : Z;
  c_symbol : string;
  c_crypto_amount : Q;
  c_avg_price : Q
}.

(** The content of [trading_app.db] as seen through [self.conn]. *)
Record Database : Type := mk_db {
  users : list user_row;
  portfolio : list portfolio_row;
  transactions : list transaction_row;
  crypto_portfolio : list crypto_row
}.

Definition default_balance : Q := 100000.

End Schema.
Export Schema.

(** ** Python values *)

(** [x > 0] on numbers. *)
Definition Qgt_bool (x y : Q) : bool := negb (Qle_bool x y).

(** What a call of a [Database] method does: it returns a value, leaving the
    store in some state, or it raises. *)
Inductive outcome (A : Type) : Type :=
| Returns (db : Database) (value : A)
| ZeroDivisionError.
Arguments Returns {A} db value.
Arguments ZeroDivisionError {A}.

(** Python's [a / b] on numbers. *)
Definition truediv (a b : Q) : option Q :=
  if Qeq_bool b 0 then None else Some (a / b).

(** ** SQL statements issued by the ledger *)

Module Sql.

Definition portfolio_key (user_id : Z) (symbol : string) (r : portfolio_row) : bool :=
  (p_user_id r =? user_id)%Z && (p_symbol r =? symbol)%string.

Definition crypto_key (user_id : Z) (symbol : string) (r : crypto_row) : bool :=
  (c_user_id r =? user_id)%Z && (c_symbol r =? symbol)%string.

(** [SELECT shares, avg_price FROM portfolio WHERE user_id = ? AND symbol=?]
    followed by [fetchone()]. *)
Definition select_position (db : Database) (user_id : Z) (symbol : string)
  : option (Q * Q) :=
  match find (portfolio_key user_id symbol) (portfolio db) with
  | Some r => Some (p_shares r, p_avg_price r)
  | None => None
  end.

(** [UPDATE portfolio SET shares=?, avg_price=? WHERE user_id=? AND symbol=?] *)
Definition update_position (db : Database) (new_shares new_avg_price : Q)
  (user_id : Z) (symbol : string) : Database :=
  mk_db (users db)
        (map (fun r => if portfolio_key user_id symbol r
                       then mk_portfolio (p_user_id r) (p_symbol r) new_shares new_avg_price
                       else r) (portfolio db))
        (transactions db) (crypto_portfolio db).

(** [UPDATE portfolio SET shares=? WHERE user_id=? AND symbol=?] *)
Definition update_position_shares (db : Database) (new_shares : Q)
  (user_id : Z) (symbol : string) : Database :=
  mk_db (users db)
        (map (fun r => if portfolio_key user_id symbol r
                       then mk_portfolio (p_user_id r) (p_symbol r) new_shares (p_avg_price r)
                       else r) (portfolio db))
        (transactions db) (crypto_portfolio db).

(** [INSERT INTO portfolio (user_id, symbol, shares, avg_price) VALUES (?, ?, ?, ?)] *)
Definition insert_position (db : Database) (user_id : Z) (symbol : string)
  (shares avg_price : Q) : Database :=
  mk_db (users db)
        (portfolio db ++ [mk_portfolio user_id symbol shares avg_price])
        (transactions db) (crypto_portfolio db).

(** [DELETE FROM portfolio WHERE user_id = ? AND symbol=?] *)
Definition delete_position (db : Database) (user_id : Z) (symbol : string) : Database :=
  mk_db (users db)
        (filter (fun r => negb (portfolio_key user_id symbol r)) (portfolio db))
        (transactions db) (crypto_portfolio db).

(** [INSERT INTO transactions (user_id, symbol, transaction_type, shares, price)
     VALUES (?, ?, ?, ?, ?)] *)
Definition insert_transaction (db : Database) (user_id : Z) (symbol : string)
  (transaction_type : string) (shares price : Q) : Database :=
  mk_db (users db) (portfolio db)
        (transactions db ++ [mk_transaction user_id symbol transaction_type shares price])
        (crypto_portfolio db).

(** [UPDATE users SET balance = balance + ? WHERE id=?] *)
Definition update_balance (db : Database) (delta : Q) (user_id : Z) : Database :=
  mk_db (map (fun u => if (u_id u =? user_id)%Z
                       then mk_user (u_id u) (u_name u) (u_email u) (u_password u)
                                    (u_balance u + delta)
                       else u) (users db))
        (portfolio db) (transactions db) (crypto_portfolio db).

(** [SELECT crypto_amount, avg_price FROM crypto_portfolio
     WHERE user_id = ? AND symbol=?] followed by [fetchone()]. *)
Definition select_crypto (db : Database) (user_id : Z) (symbol : string)
  : option (Q * Q) :=
  match find (crypto_key user_id symbol) (crypto_portfolio db) with
  | Some r => Some (c_crypto_amount r, c_avg_price r)
  | None => None
  end.

(** [UPDATE crypto_portfolio SET crypto_amount=?, avg_price=?
     WHERE user_id = ? AND symbol = ?] *)
Definition update_crypto (db : Database) (new_amount new_avg_price : Q)
  (user_id : Z) (symbol : string) : Database :=
  mk_db (users db) (portfolio db) (transactions db)
        (map (fun r => if crypto_key user_id symbol r
                       then mk_crypto (c_user_id r) (c_symbol r) new_amount new_avg_price
                       else r) (crypto_portfolio db)).

(** [UPDATE crypto_portfolio SET crypto_amount=? WHERE user_id=? AND symbol=?] *)
Definition update_crypto_amount (db : Database) (new_amount : Q)
  (user_id : Z) (symbol : string) : Database :=
  mk_db (users db) (portfolio db) (transactions db)
        (map (fun r => if crypto_key user_id symbol r
                       then mk_crypto (c_user_id r) (c_symbol r) new_amount (c_avg_price r)
                       else r) (crypto_portfolio db)).

(** [INSERT INTO crypto_portfolio (user_id, symbol, crypto_amount, avg_price)
     VALUES (?, ?, ?, ?)] *)
Definition insert_crypto (db : Database) (user_id : Z) (symbol : string)
  (amount avg_price : Q) : Database :=
  mk_db (users db) (portfolio db) (transactions db)
        (crypto_portfolio db ++ [mk_crypto user_id symbol amount avg_price]).

(** [DELETE FROM crypto_portfolio WHERE user_id = ? AND symbol=?] *)
Definition delete_crypto (db : Database) (user_id : Z) (symbol : string) : Database :=
  mk_db (users db) (portfolio db) (transactions db)
        (filter (fun r => negb (crypto_key user_id symbol r)) (crypto_portfolio db)).

End Sql.
Export Sql.

(** The [balance] column of the row of [users] whose [id] is [user_id]
    ([id] is the primary key); the ledger never reads it, this is how the
    theorems below observe it. *)
Definition balance_of (db : Database) (user_id : Z) : option Q :=
  match find (fun u => (u_id u =? user_id)%Z) (users db) with
  | Some u => Some (u_balance u)
  | None => None
  end.

(** ** [Database.get_portfolio] *)

Definition get_portfolio (db : Database) (user_id : Z) : list (string * Q * Q) :=
  map (fun r => (p_symbol r, p_shares r, p_avg_price r))
      (filter (fun r => (p_user_id r =? user_id)%Z) (portfolio db)).

(** ** [Database.update_portfolio] *)

(** The end of the method, reached by every path that has not returned:
    recording the transaction, updating the user's balance. *)
Definition record_order (db : Database) (user_id : Z) (symbol : string)
  (shares price : Q) (is_buy : bool) : Database :=
  let db := insert_transaction db user_id symbol
              (if is_buy then "BUY" else "SELL")%string shares price in
  let transaction_value := shares * price in
  update_balance db (if is_buy then - transaction_value else transaction_value) user_id.

Definition update_portfolio (db : Database) (user_id : Z) (symbol : string)
  (shares price : Q) (is_buy : bool) : outcome bool :=
  let existing := select_position db user_id symbol in
  let record (db : Database) : outcome bool :=
    Returns (record_order db user_id symbol shares price is_buy) true in
  if is_buy then
    match existing with
    | Some (existing_0, existing_1) =>
        let new_shares := existing_0 + shares in
        let old_shares := existing_1 in
        let only_new_share_price := new_shares * price in
        match truediv (old_shares + only_new_share_price) new_shares with
        | Some new_avg_price =>
            record (update_position db new_shares new_avg_price user_id symbol)
        | None => ZeroDivisionError
        end
    | None =>
        record (insert_position db user_id symbol shares price)
    end
  else
    match existing with
    | Some (existing_0, _) =>
        if Qle_bool shares existing_0 then
          let new_shares := existing_0 - shares in
          if Qgt_bool new_shares 0 then
            record (update_position_shares db new_shares user_id symbol)
          else
            record (delete_position db user_id symbol)
        else Returns db false
    | None => Returns db false
    end.

(** ** [Database.update_crypto_portfolio] *)

Definition update_crypto_portfolio (db : Database) (user_id : Z) (symbol : string)
  (crypto_amount current_price : Q) (is_buy : bool) : outcome bool :=
  let existing := select_crypto db user_id symbol in
  if is_buy then
    match existing with
    | Some (existing_0, existing_1) =>
        let new_amount := existing_0 + crypto_amount in
        match truediv (existing_1 * existing_0 + current_price * crypto_amount)
                      new_amount with
        | Some new_avg_price =>
            Returns (update_crypto db new_amount new_avg_price user_id symbol) true
        | None => ZeroDivisionError
        end
    | None =>
        Returns (insert_crypto db user_id symbol crypto_amount current_price) true
    end
  else
    match existing with
    | Some (existing_0, _) =>
        if Qle_bool crypto_amount existing_0 then
          let new_amount := existing_0 - crypto_amount in
          if Qgt_bool new_amount 0 then
            Returns (update_crypto_amount db new_amount user_id symbol) true
          else
            Returns (delete_crypto db user_id symbol) true
        else Returns db false
    | None => Returns db false
    end.

(** ** The two asset classes

    The source has one method and one table per asset class; indexing them by
    the class lets a property of both be stated once. *)

Inductive asset_class : Type := EQUITY | CRYPTO.

Definition ledger (c : asset_class)
  : Database -> Z -> string -> Q -> Q -> bool -> outcome bool :=
  match c with
  | EQUITY => update_portfolio
  | CRYPTO => update_crypto_portfolio
  end.

Definition position (c : asset_class) : Database -> Z -> string -> option (Q * Q) :=
  match c with
  | EQUITY => select_position
  | CRYPTO => select_crypto
  end.

(** The quantity a user holds of a symbol: that of the row, none without one. *)
Definition held (c : asset_class) (db : Database) (user_id : Z) (symbol : string) : Q :=
  match position c db user_id symbol with
  | Some (quantity, _) => quantity
  | None => 0
  end.

(** What makes a SELL of [quantity] refused: no row, or a row that holds less. *)
Definition holds_less_than (existing : option (Q * Q)) (quantity : Q) : Prop :=
  match existing with
  | Some (existing_0, _) => existing_0 < quantity
  | None => True
  end.

(** What makes the average of a BUY defined: no row, or a new quantity that
    is not zero. *)
Definition buy_defined (existing : option (Q * Q)) (quantity : Q) : Prop :=
  match existing with
  | Some (existing_0, _) => ~ existing_0 + quantity == 0
  | None => True
  end.

(** No row of either position table holds a quantity that is not strictly
    positive. *)
Definition positions_positive (db : Database) : Prop :=
  Forall (fun r => 0 < p_shares r) (portfolio db) /\
  Forall (fun r => 0 < c_crypto_amount r) (crypto_portfolio db).

(** A position is there exactly when its quantity is strictly positive. *)
Definition row_iff_positive (db : Database) : Prop :=
  forall c user_id symbol,
    position c db user_id symbol <> None <-> 0 < held c db user_id symbol.

(** ** The buy and sell forms of [src/views/trading.py]

    [st.session_state.user] is the dictionary built by [verify_user];
    [shares_to_buy] and [shares_to_sell] come from
    [st.number_input(..., min_value=0.0, step=1.0)], [current_price] from the
    market data.  The handlers run when the form is submitted. *)

Module Trading.

Record session_user : Type := mk_session {
  s_id : Z;
  s_name : string;
  s_balance : Q
}.

Inductive message : Type :=
| error_insufficient_funds
| success_bought
| error_transaction_failed
| success_sold
| error_insufficient_shares.

(** The range a [number_input] with the given [min_value] lets through. *)
Definition number_input_accepts (min_value value : Q) : bool :=
  Qle_bool min_value value.

Definition buy_form (db : Database) (user : session_user) (symbol : string)
  (shares_to_buy current_price : Q) : outcome (session_user * message) :=
  let total_share_cost := shares_to_buy * current_price in
  if Qgt_bool total_share_cost (s_balance user) then
    Returns db (user, error_insufficient_funds)
  else
    match update_portfolio db (s_id user) symbol shares_to_buy current_price true with
    | Returns db true =>
        Returns db (mk_session (s_id user) (s_name user)
                               (s_balance user - total_share_cost), success_bought)
    | Returns db false => Returns db (user, error_transaction_failed)
    | ZeroDivisionError => ZeroDivisionError
    end.


End Trading.

(** ** Sequences of orders *)

(** One order of the form: quantity and unit price. *)
Definition order : Type := (Q * Q)%type.

(** Submitting BUY orders one after the other on one symbol; the first
    exception, or the first refusal, ends the run. *)
Fixpoint buy_all (c : asset_class) (db : Database) (user_id : Z) (symbol : string)
  (orders : list order) : outcome bool :=
  match orders with
  | [] => Returns db true
  | (quantity, price) :: rest =>
      match ledger c db user_id symbol quantity price true with
      | Returns db' true => buy_all c db' user_id symbol rest
      | other => other
      end
  end.

(** The sum of the quantities of a list of orders. *)
Fixpoint total_quantity (orders : list order) : Q :=
  match orders with
  | [] => 0
  | (quantity, _) :: rest => quantity + total_quantity rest
  end.

(** ** The scenario of the specification

    A user registered with the default balance and nothing else in the
    store. *)

Definition alice : user_row := mk_user 1 "Alice" "alice@example.com" "digest" default_balance.

Definition db0 : Database := mk_db [alice] [] [] [].

(** The store after BUY 10 AAPL @ 150, as [update_portfolio] leaves it. *)
Definition db1 : Database :=
  mk_db [mk_user 1 "Alice" "alice@example.com" "digest" (default_balance + - (10 * 150))]
        [mk_portfolio 1 "AAPL" 10 150]
        [mk_transaction 1 "AAPL" "BUY" 10 150]
        [].

(** The same holding in the crypto table, as [update_crypto_portfolio]
    leaves it after BUY 10 BTC @ 150. *)
Definition db1_crypto : Database :=
  mk_db [alice] [] [] [mk_crypto 1 "BTC" 10 150].

(** A store where the user holds 2 units bought at 300 in each table. *)
Definition db_pair : Database :=
  mk_db [alice] [mk_portfolio 1 "ETH" 2 300] [] [mk_crypto 1 "ETH" 2 300].

(** A store with a second user, who holds nothing. *)
Definition bob : user_row := mk_user 2 "Bob" "bob@example.com" "digest2" default_balance.

Definition db_two : Database :=
  mk_db [mk_user 1 "Alice" "alice@example.com" "digest" (default_balance + - (10 * 150));
         bob]
        [mk_portfolio 1 "AAPL" 10 150]
        [mk_transaction 1 "AAPL" "BUY" 10 150]
        [].

(** ** [Database.add_user] and [Database.verify_user]

    [hashlib.sha256(password.encode()).hexdigest()] is a function of the
    standard library: the methods are modelled over any such function.

    [users.id] is [INTEGER PRIMARY KEY AUTOINCREMENT]: the engine keeps, in
    its [sqlite_sequence] table, the largest rowid the table has ever held,
    and gives a new row one more than the larger of that number and of the
    largest [id] in the table.  That counter is the state [add_user] threads
    beside the store.  [email] is [UNIQUE]: an [INSERT] of an email already
    there fails, and the bare [except:] of the method turns the failure into
    [None]. *)

Section Accounts.

Variable sha256_hexdigest : string -> string.

(** The largest [id] of [users], 0 for the empty table. *)
Definition max_user_id (db : Database) : Z :=
  fold_right Z.max 0%Z (map u_id (users db)).

(** Whether the [UNIQUE] constraint on [email] refuses a new row. *)
Definition email_taken (db : Database) (email : string) : bool :=
  existsb (fun u => (u_email u =? email)%string) (users db).

Definition add_user (db : Database) (sqlite_sequence : Z)
  (name email password : string) : Database * Z * option Z :=
  let hashed_password := sha256_hexdigest password in
  if email_taken db email then
    (db, sqlite_sequence, None)
  else
    let user_id := (Z.max sqlite_sequence (max_user_id db) + 1)%Z in
    (mk_db (users db ++ [mk_user user_id name email hashed_password default_balance])
           (portfolio db) (transactions db) (crypto_portfolio db),
     user_id, Some user_id).

Definition verify_user (db : Database) (email password : string)
  : option Trading.session_user :=
  let hashed_password := sha256_hexdigest password in
  match find (fun u => (u_email u =? email)%string
                       && (u_password u =? hashed_password)%string) (users db) with
  | Some result =>
      Some (Trading.mk_session (u_id result) (u_name result) (u_balance result))
  | None => None
  end.

End Accounts.

(** A stand-in for the digest in the examples: it keeps passwords apart, which
    is all the examples need. *)
Definition tagged_digest (password : string) : string :=
  ("sha256:" ++ password)%string.

(** The store after Alice has registered with the password "wonderland". *)
Definition alice_registered : user_row :=
  mk_user 1 "Alice" "alice@example.com" (tagged_digest "wonderland") default_balance.

Definition db_login : Database := mk_db [alice_registered] [] [] [].

(** What the constraints of [users] and its counter guarantee: no two rows
    with one email, no two rows with one [id], and no [id] above the
    counter. *)
Definition accounts_consistent (db : Database) (sqlite_sequence : Z) : Prop :=
  NoDup (map u_email (users db)) /\
  NoDup (map u_id (users db)) /\
  Forall (fun u => (u_id u <= sqlite_sequence)%Z) (users db).

(** ** Observations on the position tables and on the log *)

(** What one order writes to [portfolio] before it is recorded: one of the
    four statements of [update_portfolio], under the test that leads to it. *)
Inductive position_write (db : Database) (user_id : Z) (symbol : string)
  : Database -> Prop :=
| write_update (new_shares new_avg_price : Q) :
    select_position db user_id symbol <> None ->
    position_write db user_id symbol
      (update_position db new_shares new_avg_price user_id symbol)
| write_insert (shares price : Q) :
    select_position db user_id symbol = None ->
    position_write db user_id symbol
      (insert_position db user_id symbol shares price)
| write_shares (new_shares : Q) :
    select_position db user_id symbol <> None ->
    position_write db user_id symbol
      (update_position_shares db new_shares user_id symbol)
| write_delete :
    select_position db user_id symbol <> None ->
    position_write db user_id symbol (delete_position db user_id symbol).

(** The same for [crypto_portfolio] and [update_crypto_portfolio]. *)
Inductive crypto_write (db : Database) (user_id : Z) (symbol : string)
  : Database -> Prop :=
| cwrite_update (new_amount new_avg_price : Q) :
    select_crypto db user_id symbol <> None ->
    crypto_write db user_id symbol
      (update_crypto db new_amount new_avg_price user_id symbol)
| cwrite_insert (amount price : Q) :
    select_crypto db user_id symbol = None ->
    crypto_write db user_id symbol
      (insert_crypto db user_id symbol amount price)
| cwrite_amount (new_amount : Q) :
    select_crypto db user_id symbol <> None ->
    crypto_write db user_id symbol
      (update_crypto_amount db new_amount user_id symbol)
| cwrite_delete :
    select_crypto db user_id symbol <> None ->
    crypto_write db user_id symbol (delete_crypto db user_id symbol).

(** No two rows of a position table for one user and one symbol. *)
Definition unique_positions (db : Database) : Prop :=
  NoDup (map (fun r => (p_user_id r, p_symbol r)) (portfolio db)) /\
  NoDup (map (fun r => (c_user_id r, c_symbol r)) (crypto_portfolio db)).

(** The cash a transaction row moves: out on a BUY, in on a SELL. *)
Definition cash_of (t : transaction_row) : Q :=
  if (t_type t =? "BUY")%string then - (t_shares t * t_price t)
  else t_shares t * t_price t.

(** The cash the logged transactions of a user have moved in all. *)
Fixpoint net_cash (user_id : Z) (log : list transaction_row) : Q :=
  match log with
  | [] => 0
  | t :: rest =>
      (if (t_user_id t =? user_id)%Z then cash_of t else 0) + net_cash user_id rest
  end.

(** What a list of orders costs: the sum of quantity * price. *)
Fixpoint total_cost (orders : list order) : Q :=
  match orders with
  | [] => 0
  | (quantity, price) :: rest => quantity * price + total_cost rest
  end.

(** The session dictionary and the store agree on the balance of the user. *)
Definition session_in_sync (db : Database) (user : Trading.session_user) : Prop :=
  balance_of db (Trading.s_id user) = Some (Trading.s_balance user).

(** * Properties *)

Example db1_is_first_buy :
  update_portfolio db0 1 "AAPL" 10 150 true = Returns db1 true.
Proof. reflexivity. Qed.

Example db1_crypto_is_first_buy :
  update_crypto_portfolio db0 1 "BTC" 10 150 true = Returns db1_crypto true.
Proof. reflexivity. Qed.

(** ** Lists as tables *)

Section Tables.

Context {A : Type}.
Variable key : A -> bool.

Lemma find_app_first (l l' : list A) :
  find key (l ++ l') =
  match find key l with Some r => Some r | None => find key l' end.
Proof.
  induction l as [|r l IH]; simpl; [reflexivity|].
  destruct (key r); [reflexivity | exact IH].
Qed.

Lemma find_map_same_key (f : A -> A) (l : list A) :
  (forall r, key (f r) = key r) ->
  find key (map f l) = option_map f (find key l).
Proof.
  intros Hkey. induction l as [|r l IH]; simpl; [reflexivity|].
  rewrite Hkey. destruct (key r); [reflexivity | exact IH].
Qed.

Lemma find_filter_out (l : list A) :
  find key (filter (fun r => negb (key r)) l) = None.
Proof.
  induction l as [|r l IH]; simpl; [reflexivity|].
  destruct (key r) eqn:E; simpl; [exact IH|].
  rewrite E. exact IH.
Qed.

Lemma Forall_map_if (P : A -> Prop) (f : A -> A) (l : list A) :
  (forall r, key r = true -> P (f r)) ->
  Forall P l ->
  Forall P (map (fun r => if key r then f r else r) l).
Proof.
  intros Hf HP. induction HP as [|r l Hr _ IH]; simpl; constructor; auto.
  destruct (key r) eqn:E; auto.
Qed.

Lemma Forall_filter_keep (P : A -> Prop) (g : A -> bool) (l : list A) :
  Forall P l -> Forall P (filter g l).
Proof.
  intros HP. induction HP as [|r l Hr _ IH]; simpl; [constructor|].
  destruct (g r); [constructor|]; assumption.
Qed.

End Tables.

(** ** Numbers *)

Lemma Qgt_bool_iff (x y : Q) : Qgt_bool x y = true <-> y < x.
Proof.
  unfold Qgt_bool. rewrite negb_true_iff.
  split; intros H.
  - apply Qnot_le_lt. intros Hle. apply Qle_bool_iff in Hle. congruence.
  - destruct (Qle_bool x y) eqn:E; [|reflexivity].
    apply Qle_bool_iff in E. exfalso. exact (Qlt_not_le _ _ H E).
Qed.

Lemma Qgt_bool_false_iff (x y : Q) : Qgt_bool x y = false <-> x <= y.
Proof.
  unfold Qgt_bool. rewrite negb_false_iff. apply Qle_bool_iff.
Qed.

Lemma Qle_bool_false_iff (x y : Q) : Qle_bool x y = false <-> y < x.
Proof.
  rewrite <- Qgt_bool_iff. unfold Qgt_bool.
  destruct (Qle_bool x y); simpl; intuition congruence.
Qed.

Lemma truediv_defined (a b : Q) : ~ b == 0 -> truediv a b = Some (a / b).
Proof.
  intros Hb. unfold truediv.
  destruct (Qeq_bool b 0) eqn:E; [|reflexivity].
  apply Qeq_bool_iff in E. contradiction.
Qed.


(** ** Keys and the statements on [portfolio] and [crypto_portfolio] *)

Lemma portfolio_key_refl (user_id : Z) (symbol : string) (q a : Q) :
  portfolio_key user_id symbol (mk_portfolio user_id symbol q a) = true.
Proof.
  unfold portfolio_key; simpl. now rewrite Z.eqb_refl, String.eqb_refl.
Qed.

Lemma crypto_key_refl (user_id : Z) (symbol : string) (q a : Q) :
  crypto_key user_id symbol (mk_crypto user_id symbol q a) = true.
Proof.
  unfold crypto_key; simpl. now rewrite Z.eqb_refl, String.eqb_refl.
Qed.

Section Statements.

Variables (db : Database) (user_id : Z) (symbol : string).

Lemma select_update_position (q0 a0 q a : Q) :
  select_position db user_id symbol = Some (q0, a0) ->
  select_position (update_position db q a user_id symbol) user_id symbol = Some (q, a).
Proof.
  unfold select_position, update_position; simpl.
  rewrite find_map_same_key.
  - destruct (find _ (portfolio db)) as [r|] eqn:E; [|discriminate].
    intros _. simpl. apply find_some in E. destruct E as [_ E]. now rewrite E.
  - intros r. destruct (portfolio_key user_id symbol r) eqn:E; [|exact E].
    unfold portfolio_key in *; simpl. exact E.
Qed.

Lemma select_update_position_shares (q0 a0 q : Q) :
  select_position db user_id symbol = Some (q0, a0) ->
  select_position (update_position_shares db q user_id symbol) user_id symbol
  = Some (q, a0).
Proof.
  unfold select_position, update_position_shares; simpl.
  rewrite find_map_same_key.
  - destruct (find _ (portfolio db)) as [r|] eqn:E; [|discriminate].
    intros H. injection H as _ Ha. simpl.
    apply find_some in E. destruct E as [_ E]. rewrite E. simpl. now rewrite Ha.
  - intros r. destruct (portfolio_key user_id symbol r) eqn:E; [|exact E].
    unfold portfolio_key in *; simpl. exact E.
Qed.

Lemma select_insert_position (q a : Q) :
  select_position db user_id symbol = None ->
  select_position (insert_position db user_id symbol q a) user_id symbol = Some (q, a).
Proof.
  unfold select_position, insert_position; simpl.
  rewrite find_app_first.
  destruct (find _ (portfolio db)); [discriminate|].
  intros _. simpl. now rewrite portfolio_key_refl.
Qed.

Lemma select_delete_position :
  select_position (delete_position db user_id symbol) user_id symbol = None.
Proof.
  unfold select_position, delete_position; simpl.
  now rewrite find_filter_out.
Qed.

Lemma select_update_crypto (q0 a0 q a : Q) :
  select_crypto db user_id symbol = Some (q0, a0) ->
  select_crypto (update_crypto db q a user_id symbol) user_id symbol = Some (q, a).
Proof.
  unfold select_crypto, update_crypto; simpl.
  rewrite find_map_same_key.
  - destruct (find _ (crypto_portfolio db)) as [r|] eqn:E; [|discriminate].
    intros _. simpl. apply find_some in E. destruct E as [_ E]. now rewrite E.
  - intros r. destruct (crypto_key user_id symbol r) eqn:E; [|exact E].
    unfold crypto_key in *; simpl. exact E.
Qed.

Lemma select_update_crypto_amount (q0 a0 q : Q) :
  select_crypto db user_id symbol = Some (q0, a0) ->
  select_crypto (update_crypto_amount db q user_id symbol) user_id symbol
  = Some (q, a0).
Proof.
  unfold select_crypto, update_crypto_amount; simpl.
  rewrite find_map_same_key.
  - destruct (find _ (crypto_portfolio db)) as [r|] eqn:E; [|discriminate].
    intros H. injection H as _ Ha. simpl.
    apply find_some in E. destruct E as [_ E]. rewrite E. simpl. now rewrite Ha.
  - intros r. destruct (crypto_key user_id symbol r) eqn:E; [|exact E].
    unfold crypto_key in *; simpl. exact E.
Qed.

Lemma select_insert_crypto (q a : Q) :
  select_crypto db user_id symbol = None ->
  select_crypto (insert_crypto db user_id symbol q a) user_id symbol = Some (q, a).
Proof.
  unfold select_crypto, insert_crypto; simpl.
  rewrite find_app_first.
  destruct (find _ (crypto_portfolio db)); [discriminate|].
  intros _. simpl. now rewrite crypto_key_refl.
Qed.

Lemma select_delete_crypto :
  select_crypto (delete_crypto db user_id symbol) user_id symbol = None.
Proof.
  unfold select_crypto, delete_crypto; simpl.
  now rewrite find_filter_out.
Qed.

Lemma balance_of_update_balance (delta : Q) :
  balance_of (update_balance db delta user_id) user_id
  = option_map (fun b => b + delta) (balance_of db user_id).
Proof.
  unfold balance_of, update_balance; simpl.
  rewrite find_map_same_key.
  - destruct (find _ (users db)) as [u|] eqn:E; [|reflexivity].
    simpl. apply find_some in E. destruct E as [_ E]. now rewrite E.
  - intros u. destruct (u_id u =? user_id)%Z eqn:E; simpl; exact E.
Qed.

End Statements.

(** ** What [record_order] touches *)

Section Recording.

Variables (db : Database) (user_id : Z) (symbol : string) (shares price : Q)
          (is_buy : bool).

Lemma portfolio_record_order :
  portfolio (record_order db user_id symbol shares price is_buy) = portfolio db.
Proof. reflexivity. Qed.

Lemma crypto_record_order :
  crypto_portfolio (record_order db user_id symbol shares price is_buy)
  = crypto_portfolio db.
Proof. reflexivity. Qed.

Lemma transactions_record_order :
  transactions (record_order db user_id symbol shares price is_buy)
  = transactions db
    ++ [mk_transaction user_id symbol (if is_buy then "BUY" else "SELL") shares price].
Proof. reflexivity. Qed.

Lemma balance_record_order :
  balance_of (record_order db user_id symbol shares price is_buy) user_id
  = option_map
      (fun b => b + (if is_buy then - (shares * price) else shares * price))
      (balance_of db user_id).
Proof.
  unfold record_order. rewrite balance_of_update_balance. reflexivity.
Qed.

Lemma select_record_order (u : Z) (s : string) :
  select_position (record_order db user_id symbol shares price is_buy) u s
  = select_position db u s.
Proof. reflexivity. Qed.

End Recording.

(** ** The paths of [update_portfolio] *)

Section Equity.

Variables (db : Database) (user_id : Z) (symbol : string) (shares price : Q).

Lemma update_portfolio_buy_existing (q0 a0 : Q) :
  select_position db user_id symbol = Some (q0, a0) ->
  ~ q0 + shares == 0 ->
  update_portfolio db user_id symbol shares price true
  = Returns (record_order
               (update_position db (q0 + shares)
                  ((a0 + (q0 + shares) * price) / (q0 + shares)) user_id symbol)
               user_id symbol shares price true) true.
Proof.
  intros Hsel Hnz. unfold update_portfolio. rewrite Hsel.
  now rewrite (truediv_defined _ _ Hnz).
Qed.


Lemma update_portfolio_buy_new :
  select_position db user_id symbol = None ->
  update_portfolio db user_id symbol shares price true
  = Returns (record_order (insert_position db user_id symbol shares price)
               user_id symbol shares price true) true.
Proof.
  intros Hsel. unfold update_portfolio. now rewrite Hsel.
Qed.

Lemma update_portfolio_sell_part (q0 a0 : Q) :
  select_position db user_id symbol = Some (q0, a0) ->
  shares < q0 ->
  update_portfolio db user_id symbol shares price false
  = Returns (record_order (update_position_shares db (q0 - shares) user_id symbol)
               user_id symbol shares price false) true.
Proof.
  intros Hsel Hlt. unfold update_portfolio. rewrite Hsel.
  assert (Hle : Qle_bool shares q0 = true)
    by (apply Qle_bool_iff, Qlt_le_weak, Hlt).
  assert (Hgt : Qgt_bool (q0 - shares) 0 = true)
    by (apply Qgt_bool_iff; lra).
  now rewrite Hle, Hgt.
Qed.

Lemma update_portfolio_sell_all (q0 a0 : Q) :
  select_position db user_id symbol = Some (q0, a0) ->
  q0 == shares ->
  update_portfolio db user_id symbol shares price false
  = Returns (record_order (delete_position db user_id symbol)
               user_id symbol shares price false) true.
Proof.
  intros Hsel Heq. unfold update_portfolio. rewrite Hsel.
  assert (Hle : Qle_bool shares q0 = true)
    by (apply Qle_bool_iff; lra).
  assert (Hgt : Qgt_bool (q0 - shares) 0 = false)
    by (apply Qgt_bool_false_iff; lra).
  now rewrite Hle, Hgt.
Qed.

Lemma update_portfolio_sell_refused :
  holds_less_than (select_position db user_id symbol) shares ->
  update_portfolio db user_id symbol shares price false = Returns db false.
Proof.
  unfold update_portfolio, holds_less_than.
  destruct (select_position db user_id symbol) as [[q0 a0]|]; [|reflexivity].
  intros Hlt. apply Qle_bool_false_iff in Hlt. now rewrite Hlt.
Qed.

(** A refusal is the only way to [False], and it leaves the store alone;
    a BUY is never refused. *)
Lemma update_portfolio_false (is_buy : bool) (db' : Database) :
  update_portfolio db user_id symbol shares price is_buy = Returns db' false ->
  db' = db /\ is_buy = false.
Proof.
  unfold update_portfolio.
  destruct is_buy; destruct (select_position db user_id symbol) as [[q0 a0]|];
    try discriminate.
  - destruct (truediv _ _); discriminate.
  - destruct (Qle_bool shares q0); [destruct (Qgt_bool _ _); discriminate|].
    intros H; injection H as <-. now split.
  - intros H; injection H as <-. now split.
Qed.

(** Every successful order went through [record_order], on a store that
    differs from the first one in the [portfolio] table only. *)
Lemma update_portfolio_true (is_buy : bool) (db' : Database) :
  update_portfolio db user_id symbol shares price is_buy = Returns db' true ->
  exists mid,
    db' = record_order mid user_id symbol shares price is_buy /\
    users mid = users db /\ transactions mid = transactions db /\
    crypto_portfolio mid = crypto_portfolio db.
Proof.
  unfold update_portfolio.
  destruct is_buy; destruct (select_position db user_id symbol) as [[q0 a0]|];
    try discriminate.
  - destruct (truediv _ _); [|discriminate].
    intros H; injection H as <-. eexists; split; [reflexivity|now simpl].
  - intros H; injection H as <-. eexists; split; [reflexivity|now simpl].
  - destruct (Qle_bool shares q0); [|discriminate].
    destruct (Qgt_bool _ _); intros H; injection H as <-;
      (eexists; split; [reflexivity|now simpl]).
Qed.

End Equity.

(** ** The paths of [update_crypto_portfolio] *)

Section Crypto.

Variables (db : Database) (user_id : Z) (symbol : string)
          (crypto_amount current_price : Q).

Lemma update_crypto_buy_existing (q0 a0 : Q) :
  select_crypto db user_id symbol = Some (q0, a0) ->
  ~ q0 + crypto_amount == 0 ->
  update_crypto_portfolio db user_id symbol crypto_amount current_price true
  = Returns (update_crypto db (q0 + crypto_amount)
               ((a0 * q0 + current_price * crypto_amount) / (q0 + crypto_amount))
               user_id symbol) true.
Proof.
  intros Hsel Hnz. unfold update_crypto_portfolio. rewrite Hsel.
  now rewrite (truediv_defined _ _ Hnz).
Qed.

Lemma update_crypto_buy_new :
  select_crypto db user_id symbol = None ->
  update_crypto_portfolio db user_id symbol crypto_amount current_price true
  = Returns (insert_crypto db user_id symbol crypto_amount current_price) true.
Proof.
  intros Hsel. unfold update_crypto_portfolio. now rewrite Hsel.
Qed.

Lemma update_crypto_sell_part (q0 a0 : Q) :
  select_crypto db user_id symbol = Some (q0, a0) ->
  crypto_amount < q0 ->
  update_crypto_portfolio db user_id symbol crypto_amount current_price false
  = Returns (update_crypto_amount db (q0 - crypto_amount) user_id symbol) true.
Proof.
  intros Hsel Hlt. unfold update_crypto_portfolio. rewrite Hsel.
  assert (Hle : Qle_bool crypto_amount q0 = true)
    by (apply Qle_bool_iff, Qlt_le_weak, Hlt).
  assert (Hgt : Qgt_bool (q0 - crypto_amount) 0 = true)
    by (apply Qgt_bool_iff; lra).
  now rewrite Hle, Hgt.
Qed.

Lemma update_crypto_sell_all (q0 a0 : Q) :
  select_crypto db user_id symbol = Some (q0, a0) ->
  q0 == crypto_amount ->
  update_crypto_portfolio db user_id symbol crypto_amount current_price false
  = Returns (delete_crypto db user_id symbol) true.
Proof.
  intros Hsel Heq. unfold update_crypto_portfolio. rewrite Hsel.
  assert (Hle : Qle_bool crypto_amount q0 = true)
    by (apply Qle_bool_iff; lra).
  assert (Hgt : Qgt_bool (q0 - crypto_amount) 0 = false)
    by (apply Qgt_bool_false_iff; lra).
  now rewrite Hle, Hgt.
Qed.

Lemma update_crypto_sell_refused :
  holds_less_than (select_crypto db user_id symbol) crypto_amount ->
  update_crypto_portfolio db user_id symbol crypto_amount current_price false
  = Returns db false.
Proof.
  unfold update_crypto_portfolio, holds_less_than.
  destruct (select_crypto db user_id symbol) as [[q0 a0]|]; [|reflexivity].
  intros Hlt. apply Qle_bool_false_iff in Hlt. now rewrite Hlt.
Qed.

(** No path of the crypto method writes to [users], [transactions] or
    [portfolio]. *)
Lemma update_crypto_portfolio_frame (is_buy ok : bool) (db' : Database) :
  update_crypto_portfolio db user_id symbol crypto_amount current_price is_buy
  = Returns db' ok ->
  users db' = users db /\ transactions db' = transactions db /\
  portfolio db' = portfolio db.
Proof.
  unfold update_crypto_portfolio.
  destruct is_buy; destruct (select_crypto db user_id symbol) as [[q0 a0]|].
  - destruct (truediv _ _); [|discriminate].
    intros H; injection H as <- _. now simpl.
  - intros H; injection H as <- _. now simpl.
  - destruct (Qle_bool crypto_amount q0); [destruct (Qgt_bool _ _)|];
      intros H; injection H as <- _; now simpl.
  - intros H; injection H as <- _. now simpl.
Qed.

End Crypto.

(** ** Refused and partial sells *)

Lemma ledger_sell_refused
  (c : asset_class) (db : Database) (user_id : Z) (symbol : string)
  (quantity price : Q) :
  holds_less_than (position c db user_id symbol) quantity ->
  ledger c db user_id symbol quantity price false = Returns db false.
Proof.
  destruct c; cbn [ledger position]; intros Hless.
  - now apply update_portfolio_sell_refused.
  - now apply update_crypto_sell_refused.
Qed.

(** C4. A SELL on a position that is absent, or that holds strictly less than
    the requested quantity, returns [False] and leaves the whole store (the
    position tables, the balance and the transaction log) as it was, in both
    asset classes. *)
Theorem sell_refused_mutates_nothing
  (c : asset_class) (db : Database) (user_id : Z) (symbol : string)
  (quantity price : Q) :
  holds_less_than (position c db user_id symbol) quantity ->
  ledger c db user_id symbol quantity price false = Returns db false.
Proof. apply ledger_sell_refused. Qed.

Lemma sell_refused_mutates_nothing_witness :
  ledger EQUITY db1 1 "TSLA" 1 100 false = Returns db1 false /\
  ledger CRYPTO db1_crypto 1 "BTC" 11 200 false = Returns db1_crypto false.
Proof.
  split.
  - apply (sell_refused_mutates_nothing EQUITY db1 1 "TSLA" 1 100). simpl. exact I.
  - apply (sell_refused_mutates_nothing CRYPTO db1_crypto 1 "BTC" 11 200).
    simpl. reflexivity.
Defined.

(** C6. A successful SELL that leaves part of the position changes its
    quantity only: the average cost read back is the one stored before, in
    both asset classes. *)
Theorem partial_sell_keeps_average_cost
  (c : asset_class) (db : Database) (user_id : Z) (symbol : string)
  (quantity price q0 a0 : Q) :
  position c db user_id symbol = Some (q0, a0) ->
  quantity < q0 ->
  exists db',
    ledger c db user_id symbol quantity price false = Returns db' true /\
    position c db' user_id symbol = Some (q0 - quantity, a0).
Proof.
  intros Hpos Hlt. destruct c; cbn [ledger position] in *.
  - eexists. split.
    + apply (update_portfolio_sell_part _ _ _ _ _ _ _ Hpos Hlt).
    + rewrite select_record_order.
      apply (select_update_position_shares _ _ _ _ _ _ Hpos).
  - eexists. split.
    + apply (update_crypto_sell_part _ _ _ _ _ _ _ Hpos Hlt).
    + apply (select_update_crypto_amount _ _ _ _ _ _ Hpos).
Qed.

Lemma partial_sell_keeps_average_cost_witness :
  exists db',
    ledger EQUITY db1 1 "AAPL" 4 200 false = Returns db' true /\
    position EQUITY db' 1 "AAPL" = Some (10 - 4, 150).
Proof.
  apply (partial_sell_keeps_average_cost EQUITY db1 1 "AAPL" 4 200 10 150);
    reflexivity.
Defined.

(** ** Buying *)

(** C10. A BUY of quantity 0 on a symbol without a row returns [True] and
    inserts a row whose [shares] is 0; the buy form lets it through, since its
    [number_input] accepts 0 and a cost of 0 passes the funds check of any
    user whose balance is not negative. *)
Theorem zero_share_buy_inserts_zero_row
  (db : Database) (user : Trading.session_user) (symbol : string) (price : Q) :
  select_position db (Trading.s_id user) symbol = None ->
  0 <= Trading.s_balance user ->
  Trading.number_input_accepts 0 0 = true /\
  exists db' user',
    update_portfolio db (Trading.s_id user) symbol 0 price true = Returns db' true /\
    Trading.buy_form db user symbol 0 price
    = Returns db' (user', Trading.success_bought) /\
    select_position db' (Trading.s_id user) symbol = Some (0, price) /\
    In (mk_portfolio (Trading.s_id user) symbol 0 price) (portfolio db').
Proof.
  intros Hsel Hbal. split; [reflexivity|].
  pose proof (update_portfolio_buy_new db (Trading.s_id user) symbol 0 price Hsel)
    as Hbuy.
  eexists. eexists. split; [exact Hbuy|]. split; [|split].
  - unfold Trading.buy_form. rewrite Hbuy.
    assert (Hfunds : Qgt_bool (0 * price) (Trading.s_balance user) = false)
      by (apply Qgt_bool_false_iff; lra).
    rewrite Hfunds. reflexivity.
  - rewrite select_record_order. now apply select_insert_position.
  - rewrite portfolio_record_order. simpl. apply in_or_app. right. now left.
Qed.

Lemma zero_share_buy_inserts_zero_row_witness :
  Trading.number_input_accepts 0 0 = true /\
  exists db' user',
    update_portfolio db0 1 "AAPL" 0 150 true = Returns db' true /\
    Trading.buy_form db0 (Trading.mk_session 1 "Alice" default_balance) "AAPL" 0 150
    = Returns db' (user', Trading.success_bought) /\
    select_position db' 1 "AAPL" = Some (0, 150) /\
    In (mk_portfolio 1 "AAPL" 0 150) (portfolio db').
Proof.
  apply (zero_share_buy_inserts_zero_row db0
           (Trading.mk_session 1 "Alice" default_balance) "AAPL" 150).
  - reflexivity.
  - simpl. unfold default_balance. lra.
Defined.

(** C8. The outcome of a BUY does not depend on the balance: whatever the
    user's balance [b], an order whose average is defined (no row yet, or a
    new quantity that is not zero, as with the positive quantities the forms
    send) returns [True] and leaves the balance at [b - quantity * price],
    which is strictly negative as soon as [b] is smaller than
    [quantity * price]. *)
Theorem buy_has_no_solvency_floor
  (db : Database) (user_id : Z) (symbol : string) (quantity price b : Q) :
  balance_of db user_id = Some b ->
  buy_defined (select_position db user_id symbol) quantity ->
  exists db',
    update_portfolio db user_id symbol quantity price true = Returns db' true /\
    balance_of db' user_id = Some (b - quantity * price) /\
    (b < quantity * price -> b - quantity * price < 0).
Proof.
  intros Hbal Hdef.
  assert (Hneg : b < quantity * price -> b - quantity * price < 0) by (intros; lra).
  unfold buy_defined in Hdef.
  destruct (select_position db user_id symbol) as [[q0 a0]|] eqn:Hsel.
  - eexists. split; [apply (update_portfolio_buy_existing _ _ _ _ _ _ _ Hsel Hdef)|].
    split; [|exact Hneg].
    rewrite balance_record_order.
    unfold balance_of, update_position in *; simpl. now rewrite Hbal.
  - eexists. split; [apply (update_portfolio_buy_new _ _ _ _ _ Hsel)|].
    split; [|exact Hneg].
    rewrite balance_record_order.
    unfold balance_of, insert_position in *; simpl. now rewrite Hbal.
Qed.

Lemma buy_has_no_solvency_floor_witness :
  exists db',
    update_portfolio db0 1 "AAPL" 1000 150 true = Returns db' true /\
    balance_of db' 1 = Some (default_balance - 1000 * 150) /\
    default_balance - 1000 * 150 < 0.
Proof.
  destruct (buy_has_no_solvency_floor db0 1 "AAPL" 1000 150 default_balance)
    as [db' [Hret [Hbal Hneg]]].
  - reflexivity.
  - simpl. exact I.
  - exists db'. split; [exact Hret|]. split; [exact Hbal|].
    apply Hneg. reflexivity.
Defined.

Section Buying.

Variables (c : asset_class) (db : Database) (user_id : Z) (symbol : string)
          (quantity price : Q).

Lemma ledger_buy_new :
  position c db user_id symbol = None ->
  exists db',
    ledger c db user_id symbol quantity price true = Returns db' true /\
    position c db' user_id symbol = Some (quantity, price).
Proof.
  intros Hpos. destruct c; cbn [ledger position] in *.
  - eexists. split; [apply (update_portfolio_buy_new _ _ _ _ _ Hpos)|].
    rewrite select_record_order. now apply select_insert_position.
  - eexists. split; [apply (update_crypto_buy_new _ _ _ _ _ Hpos)|].
    now apply select_insert_crypto.
Qed.

Lemma ledger_buy_existing (q0 a0 : Q) :
  position c db user_id symbol = Some (q0, a0) ->
  ~ q0 + quantity == 0 ->
  exists db' a1,
    ledger c db user_id symbol quantity price true = Returns db' true /\
    position c db' user_id symbol = Some (q0 + quantity, a1).
Proof.
  intros Hpos Hnz. destruct c; cbn [ledger position] in *.
  - eexists. eexists.
    split; [apply (update_portfolio_buy_existing _ _ _ _ _ _ _ Hpos Hnz)|].
    rewrite select_record_order. apply (select_update_position _ _ _ _ _ _ _ Hpos).
  - eexists. eexists.
    split; [apply (update_crypto_buy_existing _ _ _ _ _ _ _ Hpos Hnz)|].
    apply (select_update_crypto _ _ _ _ _ _ _ Hpos).
Qed.

End Buying.

(** From a held position, a run of BUY orders of positive quantities goes
    through and adds the quantities up. *)
Lemma buy_all_from_held (c : asset_class) (user_id : Z) (symbol : string)
  (orders : list order) :
  Forall (fun o => 0 < fst o) orders ->
  forall (db : Database) (q0 a0 : Q),
    position c db user_id symbol = Some (q0, a0) ->
    0 < q0 ->
    exists db' q a,
      buy_all c db user_id symbol orders = Returns db' true /\
      position c db' user_id symbol = Some (q, a) /\
      q == q0 + total_quantity orders.
Proof.
  induction 1 as [|[quantity price] rest Hq _ IH]; intros db q0 a0 Hpos Hq0.
  - exists db, q0, a0. simpl. repeat split; [assumption | lra].
  - simpl in Hq.
    assert (Hnz : ~ q0 + quantity == 0) by lra.
    destruct (ledger_buy_existing c db user_id symbol quantity price q0 a0 Hpos Hnz)
      as [db1' [a1 [Hret Hpos1]]].
    assert (Hq1 : 0 < q0 + quantity) by lra.
    destruct (IH db1' _ _ Hpos1 Hq1) as [db' [q [a [Hrun [Hpos' Hsum]]]]].
    exists db', q, a. simpl. rewrite Hret.
    repeat split; [assumption | assumption | lra].
Qed.

(** C7. Starting from an absent position, any finite run of BUY orders of
    positive quantities goes through, and the quantity held at its end is the
    sum of the quantities bought (in exact arithmetic), in either asset
    class. *)
Theorem buys_accumulate_quantity
  (c : asset_class) (db : Database) (user_id : Z) (symbol : string)
  (orders : list order) :
  position c db user_id symbol = None ->
  Forall (fun o => 0 < fst o) orders ->
  exists db',
    buy_all c db user_id symbol orders = Returns db' true /\
    held c db' user_id symbol == total_quantity orders.
Proof.
  intros Hpos Hall. destruct Hall as [|[quantity price] rest Hq Hrest].
  - exists db. split; [reflexivity|]. unfold held. now rewrite Hpos.
  - simpl in Hq.
    destruct (ledger_buy_new c db user_id symbol quantity price Hpos)
      as [db1' [Hret Hpos1]].
    destruct (buy_all_from_held c user_id symbol rest Hrest db1' _ _ Hpos1 Hq)
      as [db' [q [a [Hrun [Hpos' Hsum]]]]].
    exists db'. simpl. rewrite Hret. split; [exact Hrun|].
    unfold held. now rewrite Hpos'.
Qed.

Lemma buys_accumulate_quantity_witness :
  exists db',
    buy_all EQUITY db0 1 "AAPL" [(10, 150); (5, 180); (1 # 2, 200)] = Returns db' true /\
    held EQUITY db' 1 "AAPL" == total_quantity [(10, 150); (5, 180); (1 # 2, 200)].
Proof.
  apply (buys_accumulate_quantity EQUITY db0 1 "AAPL"
           [(10, 150); (5, 180); (1 # 2, 200)]).
  - reflexivity.
  - repeat constructor.
Defined.

(** ** The invariant of the position tables *)

Lemma positions_positive_row_iff (db : Database) :
  positions_positive db -> row_iff_positive db.
Proof.
  intros [Hp Hc] c user_id symbol. unfold held.
  destruct c; cbn [position]; unfold select_position, select_crypto.
  - destruct (find _ (portfolio db)) as [r|] eqn:E.
    + apply find_some in E. destruct E as [Hin _].
      rewrite Forall_forall in Hp. split; [intros _; now apply Hp | discriminate].
    + split; [congruence | intros H; exfalso; revert H; apply Qlt_irrefl].
  - destruct (find _ (crypto_portfolio db)) as [r|] eqn:E.
    + apply find_some in E. destruct E as [Hin _].
      rewrite Forall_forall in Hc. split; [intros _; now apply Hc | discriminate].
    + split; [congruence | intros H; exfalso; revert H; apply Qlt_irrefl].
Qed.

Lemma position_positive (c : asset_class) (db : Database) (user_id : Z)
  (symbol : string) (q0 a0 : Q) :
  positions_positive db ->
  position c db user_id symbol = Some (q0, a0) ->
  0 < q0.
Proof.
  intros Hinv Hpos.
  pose proof (proj1 (positions_positive_row_iff db Hinv c user_id symbol)) as H.
  unfold held in H. rewrite Hpos in H. apply H. discriminate.
Qed.

Section Invariant.

Variables (db : Database) (user_id : Z) (symbol : string).
Hypothesis Hinv : positions_positive db.

Lemma positive_update_position (q a : Q) :
  0 < q -> positions_positive (update_position db q a user_id symbol).
Proof.
  intros Hq. destruct Hinv as [Hp Hc]. split; [|exact Hc].
  unfold update_position; simpl.
  apply (Forall_map_if (portfolio_key user_id symbol)); [|exact Hp].
  intros r _. exact Hq.
Qed.

Lemma positive_update_position_shares (q : Q) :
  0 < q -> positions_positive (update_position_shares db q user_id symbol).
Proof.
  intros Hq. destruct Hinv as [Hp Hc]. split; [|exact Hc].
  unfold update_position_shares; simpl.
  apply (Forall_map_if (portfolio_key user_id symbol)); [|exact Hp].
  intros r _. exact Hq.
Qed.

Lemma positive_insert_position (q a : Q) :
  0 < q -> positions_positive (insert_position db user_id symbol q a).
Proof.
  intros Hq. destruct Hinv as [Hp Hc]. split; [|exact Hc].
  unfold insert_position; simpl.
  apply Forall_app. split; [exact Hp|]. constructor; [exact Hq | constructor].
Qed.

Lemma positive_delete_position :
  positions_positive (delete_position db user_id symbol).
Proof.
  destruct Hinv as [Hp Hc]. split; [|exact Hc].
  unfold delete_position; simpl. now apply Forall_filter_keep.
Qed.

Lemma positive_update_crypto (q a : Q) :
  0 < q -> positions_positive (update_crypto db q a user_id symbol).
Proof.
  intros Hq. destruct Hinv as [Hp Hc]. split; [exact Hp|].
  unfold update_crypto; simpl.
  apply (Forall_map_if (crypto_key user_id symbol)); [|exact Hc].
  intros r _. exact Hq.
Qed.

Lemma positive_update_crypto_amount (q : Q) :
  0 < q -> positions_positive (update_crypto_amount db q user_id symbol).
Proof.
  intros Hq. destruct Hinv as [Hp Hc]. split; [exact Hp|].
  unfold update_crypto_amount; simpl.
  apply (Forall_map_if (crypto_key user_id symbol)); [|exact Hc].
  intros r _. exact Hq.
Qed.

Lemma positive_insert_crypto (q a : Q) :
  0 < q -> positions_positive (insert_crypto db user_id symbol q a).
Proof.
  intros Hq. destruct Hinv as [Hp Hc]. split; [exact Hp|].
  unfold insert_crypto; simpl.
  apply Forall_app. split; [exact Hc|]. constructor; [exact Hq | constructor].
Qed.

Lemma positive_delete_crypto :
  positions_positive (delete_crypto db user_id symbol).
Proof.
  destruct Hinv as [Hp Hc]. split; [exact Hp|].
  unfold delete_crypto; simpl. now apply Forall_filter_keep.
Qed.

End Invariant.

Lemma positive_record_order (db : Database) (user_id : Z) (symbol : string)
  (shares price : Q) (is_buy : bool) :
  positions_positive db ->
  positions_positive (record_order db user_id symbol shares price is_buy).
Proof. intros H. exact H. Qed.

(** The store an order of positive quantity leaves, path by path. *)
Lemma ledger_keeps_positive
  (c : asset_class) (db : Database) (user_id : Z) (symbol : string)
  (quantity price : Q) (is_buy : bool) :
  0 < quantity ->
  positions_positive db ->
  exists db' ok,
    ledger c db user_id symbol quantity price is_buy = Returns db' ok /\
    positions_positive db' /\
    (is_buy = false -> held c db user_id symbol == quantity ->
     ok = true /\ position c db' user_id symbol = None).
Proof.
  intros Hq Hinv. unfold held.
  destruct (position c db user_id symbol) as [[q0 a0]|] eqn:Hpos.
  - pose proof (position_positive c db user_id symbol q0 a0 Hinv Hpos) as Hq0.
    destruct is_buy.
    + assert (Hnz : ~ q0 + quantity == 0) by lra.
      assert (Hsum : 0 < q0 + quantity) by lra.
      destruct c; cbn [ledger position] in *.
      * eexists. eexists.
        split; [apply (update_portfolio_buy_existing _ _ _ _ _ _ _ Hpos Hnz)|].
        split; [|discriminate].
        apply positive_record_order. now apply positive_update_position.
      * eexists. eexists.
        split; [apply (update_crypto_buy_existing _ _ _ _ _ _ _ Hpos Hnz)|].
        split; [|discriminate].
        now apply positive_update_crypto.
    + destruct (Q_dec quantity q0) as [[Hlt|Hgt]|Heq].
      * assert (Hrem : 0 < q0 - quantity) by lra.
        destruct c; cbn [ledger position] in *.
        -- eexists. eexists.
           split; [apply (update_portfolio_sell_part _ _ _ _ _ _ _ Hpos Hlt)|].
           split; [|intros _ Heq; lra].
           apply positive_record_order. now apply positive_update_position_shares.
        -- eexists. eexists.
           split; [apply (update_crypto_sell_part _ _ _ _ _ _ _ Hpos Hlt)|].
           split; [|intros _ Heq; lra].
           now apply positive_update_crypto_amount.
      * exists db, false. split; [|split; [exact Hinv | intros _ Heq; lra]].
        apply ledger_sell_refused. now rewrite Hpos.
      * assert (Heq' : q0 == quantity) by lra.
        destruct c; cbn [ledger position] in *.
        -- eexists. eexists.
           split; [apply (update_portfolio_sell_all _ _ _ _ _ _ _ Hpos Heq')|].
           split; [apply positive_record_order; now apply positive_delete_position|].
           intros _ _. split; [reflexivity|].
           rewrite select_record_order. apply select_delete_position.
        -- eexists. eexists.
           split; [apply (update_crypto_sell_all _ _ _ _ _ _ _ Hpos Heq')|].
           split; [now apply positive_delete_crypto|].
           intros _ _. split; [reflexivity|]. apply select_delete_crypto.
  - destruct is_buy.
    + destruct (ledger_buy_new c db user_id symbol quantity price Hpos)
        as [db' [Hret _]].
      exists db', true. split; [exact Hret|]. split; [|discriminate].
      destruct c; cbn [ledger position] in *.
      * rewrite (update_portfolio_buy_new _ _ _ _ _ Hpos) in Hret.
        injection Hret as <-.
        apply positive_record_order. now apply positive_insert_position.
      * rewrite (update_crypto_buy_new _ _ _ _ _ Hpos) in Hret.
        injection Hret as <-. now apply positive_insert_crypto.
    + exists db, false. split; [|split; [exact Hinv | intros _ Heq; lra]].
      apply ledger_sell_refused. now rewrite Hpos.
Qed.

(** C5. An order of strictly positive quantity, a BUY or a SELL on either
    asset class, always returns, and it keeps every row of the position tables
    at a strictly positive quantity, so that a position is there exactly when
    its quantity is strictly positive; a SELL of exactly the held quantity
    succeeds and deletes the row, and reading the position back finds none.
    The price plays no part. *)
Theorem orders_keep_row_iff_positive
  (c : asset_class) (db : Database) (user_id : Z) (symbol : string)
  (quantity price : Q) (is_buy : bool) :
  0 < quantity ->
  positions_positive db ->
  exists db' ok,
    ledger c db user_id symbol quantity price is_buy = Returns db' ok /\
    positions_positive db' /\
    row_iff_positive db' /\
    (is_buy = false -> held c db user_id symbol == quantity ->
     ok = true /\ position c db' user_id symbol = None).
Proof.
  intros Hq Hinv.
  destruct (ledger_keeps_positive c db user_id symbol quantity price is_buy Hq Hinv)
    as [db' [ok [Hret [Hinv' Hsell]]]].
  exists db', ok.
  split; [exact Hret|]. split; [exact Hinv'|]. split; [|exact Hsell].
  now apply positions_positive_row_iff.
Qed.

Lemma orders_keep_row_iff_positive_witness :
  exists db' ok,
    ledger EQUITY db1 1 "AAPL" 10 200 false = Returns db' ok /\
    positions_positive db' /\
    row_iff_positive db' /\
    (false = false -> held EQUITY db1 1 "AAPL" == 10 ->
     ok = true /\ position EQUITY db' 1 "AAPL" = None).
Proof.
  apply (orders_keep_row_iff_positive EQUITY db1 1 "AAPL" 10 200 false).
  - reflexivity.
  - split; simpl; repeat constructor.
Defined.

(** ** The average cost of a BUY into a held position *)

(** What each method stores for the position. *)
Lemma equity_buy_average
  (db : Database) (user_id : Z) (symbol : string) (quantity price q0 a0 : Q) :
  select_position db user_id symbol = Some (q0, a0) ->
  ~ q0 + quantity == 0 ->
  exists db',
    update_portfolio db user_id symbol quantity price true = Returns db' true /\
    select_position db' user_id symbol
    = Some (q0 + quantity, (a0 + (q0 + quantity) * price) / (q0 + quantity)).
Proof.
  intros Hsel Hnz. eexists.
  split; [apply (update_portfolio_buy_existing _ _ _ _ _ _ _ Hsel Hnz)|].
  rewrite select_record_order. apply (select_update_position _ _ _ _ _ _ _ Hsel).
Qed.

Lemma crypto_buy_average
  (db : Database) (user_id : Z) (symbol : string) (quantity price q0 a0 : Q) :
  select_crypto db user_id symbol = Some (q0, a0) ->
  ~ q0 + quantity == 0 ->
  exists db',
    update_crypto_portfolio db user_id symbol quantity price true = Returns db' true /\
    select_crypto db' user_id symbol
    = Some (q0 + quantity, (a0 * q0 + price * quantity) / (q0 + quantity)).
Proof.
  intros Hsel Hnz. eexists.
  split; [apply (update_crypto_buy_existing _ _ _ _ _ _ _ Hsel Hnz)|].
  apply (select_update_crypto _ _ _ _ _ _ _ Hsel).
Qed.

(** The two averages agree on one line of the plane only. *)
Lemma averages_agree_iff (quantity price q0 a0 : Q) :
  ~ q0 + quantity == 0 ->
  ((a0 * q0 + price * quantity) / (q0 + quantity)
   == (a0 + (q0 + quantity) * price) / (q0 + quantity)
   <-> a0 * (q0 - 1) == q0 * price).
Proof.
  intros Hnz. split; intros H.
  - assert (Hc : a0 * q0 + price * quantity
                 == (a0 * q0 + price * quantity) / (q0 + quantity) * (q0 + quantity))
      by (field; exact Hnz).
    assert (He : a0 + (q0 + quantity) * price
                 == (a0 + (q0 + quantity) * price) / (q0 + quantity) * (q0 + quantity))
      by (field; exact Hnz).
    rewrite H in Hc. rewrite <- He in Hc. lra.
  - assert (Hnum : a0 * q0 + price * quantity == a0 + (q0 + quantity) * price) by lra.
    now rewrite Hnum.
Qed.

(** C1, at the scenario of the specification.  With (10, 150.0) held, BUY 5 @
    180 through [update_portfolio] returns [True] and stores the average
    (150 + 15 * 180) / 15 = 190: it adds the old average, not the old cost
    10 * 150, to the price of all 15 shares, so the stored value is not the
    volume-weighted (10 * 150 + 5 * 180) / 15 = 160. *)
Theorem equity_buy_average_at_scenario :
  exists db2 a1,
    update_portfolio db1 1 "AAPL" 5 180 true = Returns db2 true /\
    select_position db2 1 "AAPL" = Some (10 + 5, a1) /\
    a1 == 190 /\
    (10 * 150 + 5 * 180) / (10 + 5) == 160 /\
    ~ a1 == (10 * 150 + 5 * 180) / (10 + 5).
Proof.
  destruct (equity_buy_average db1 1 "AAPL" 5 180 10 150) as [db2 [Hret Hsel]].
  - reflexivity.
  - intros H. vm_compute in H. discriminate.
  - exists db2. eexists. split; [exact Hret|]. split; [exact Hsel|].
    split; [reflexivity|]. split; [reflexivity|].
    intros H. vm_compute in H. discriminate.
Qed.

(** C9, as the code has it.  A crypto BUY into a held position (q0, a0), with
    q0 + quantity not zero, returns [True] and stores the volume-weighted
    average (q0 * a0 + quantity * price) / (q0 + quantity).  For the same
    inputs the equity method stores (a0 + (q0 + quantity) * price) /
    (q0 + quantity), and the two values differ exactly when
    a0 * (q0 - 1) is not q0 * price. *)
Theorem crypto_buy_average_is_weighted
  (dbc dbe : Database) (user_id : Z) (symbol : string) (quantity price q0 a0 : Q) :
  select_crypto dbc user_id symbol = Some (q0, a0) ->
  select_position dbe user_id symbol = Some (q0, a0) ->
  ~ q0 + quantity == 0 ->
  exists dbc' dbe' ac ae,
    update_crypto_portfolio dbc user_id symbol quantity price true
    = Returns dbc' true /\
    select_crypto dbc' user_id symbol = Some (q0 + quantity, ac) /\
    ac == (q0 * a0 + quantity * price) / (q0 + quantity) /\
    update_portfolio dbe user_id symbol quantity price true = Returns dbe' true /\
    select_position dbe' user_id symbol = Some (q0 + quantity, ae) /\
    ae == (a0 + (q0 + quantity) * price) / (q0 + quantity) /\
    (~ ac == ae <-> ~ a0 * (q0 - 1) == q0 * price).
Proof.
  intros Hc He Hnz.
  destruct (crypto_buy_average dbc user_id symbol quantity price q0 a0 Hc Hnz)
    as [dbc' [Hretc Hselc]].
  destruct (equity_buy_average dbe user_id symbol quantity price q0 a0 He Hnz)
    as [dbe' [Hrete Hsele]].
  exists dbc', dbe'. eexists. eexists.
  split; [exact Hretc|]. split; [exact Hselc|].
  split; [field; exact Hnz|].
  split; [exact Hrete|]. split; [exact Hsele|].
  split; [reflexivity|].
  now rewrite (averages_agree_iff quantity price q0 a0 Hnz).
Qed.

Lemma crypto_buy_average_is_weighted_witness :
  exists dbc' dbe' ac ae,
    update_crypto_portfolio db_pair 1 "ETH" 5 180 true = Returns dbc' true /\
    select_crypto dbc' 1 "ETH" = Some (2 + 5, ac) /\
    ac == (2 * 300 + 5 * 180) / (2 + 5) /\
    update_portfolio db_pair 1 "ETH" 5 180 true = Returns dbe' true /\
    select_position dbe' 1 "ETH" = Some (2 + 5, ae) /\
    ae == (300 + (2 + 5) * 180) / (2 + 5) /\
    (~ ac == ae <-> ~ 300 * (2 - 1) == 2 * 180).
Proof.
  apply (crypto_buy_average_is_weighted db_pair db_pair 1 "ETH" 5 180 2 300).
  - reflexivity.
  - reflexivity.
  - intros H. vm_compute in H. discriminate.
Defined.

(** C9 as stated fails: with (2, 300) held, BUY 1 @ 150 stores the same
    average, 250, through both methods. *)
Lemma crypto_and_equity_average_agree_at_pair :
  exists dbc' dbe' ac ae,
    update_crypto_portfolio db_pair 1 "ETH" 1 150 true = Returns dbc' true /\
    select_crypto dbc' 1 "ETH" = Some (3, ac) /\
    update_portfolio db_pair 1 "ETH" 1 150 true = Returns dbe' true /\
    select_position dbe' 1 "ETH" = Some (3, ae) /\
    ac == 250 /\ ae == 250 /\ ac == ae.
Proof.
  eexists. eexists. eexists. eexists.
  split; [reflexivity|]. split; [reflexivity|].
  split; [reflexivity|]. split; [reflexivity|].
  split; [reflexivity|]. split; reflexivity.
Qed.

(** ** Balance and transaction log *)

(** What [update_portfolio] does to the balance and to the log. *)
Lemma equity_order_adjusts_balance
  (db db' : Database) (user_id : Z) (symbol : string) (quantity price : Q)
  (is_buy : bool) :
  update_portfolio db user_id symbol quantity price is_buy = Returns db' true ->
  balance_of db' user_id
  = option_map
      (fun b => b + (if is_buy then - (quantity * price) else quantity * price))
      (balance_of db user_id).
Proof.
  intros Hret. apply update_portfolio_true in Hret.
  destruct Hret as [mid [-> [Husers _]]].
  rewrite balance_record_order. unfold balance_of. now rewrite Husers.
Qed.

Lemma equity_order_appends_one_row
  (db db' : Database) (user_id : Z) (symbol : string) (quantity price : Q)
  (is_buy : bool) :
  update_portfolio db user_id symbol quantity price is_buy = Returns db' true ->
  transactions db'
  = transactions db
    ++ [mk_transaction user_id symbol (if is_buy then "BUY" else "SELL")
                       quantity price].
Proof.
  intros Hret. apply update_portfolio_true in Hret.
  destruct Hret as [mid [-> [_ [Htx _]]]].
  rewrite transactions_record_order. now rewrite Htx.
Qed.

Lemma crypto_order_keeps_balance_and_log
  (db db' : Database) (user_id : Z) (symbol : string) (quantity price : Q)
  (is_buy ok : bool) :
  update_crypto_portfolio db user_id symbol quantity price is_buy = Returns db' ok ->
  balance_of db' user_id = balance_of db user_id /\
  transactions db' = transactions db.
Proof.
  intros Hret. apply update_crypto_portfolio_frame in Hret.
  destruct Hret as [Husers [Htx _]].
  unfold balance_of. now rewrite Husers, Htx.
Qed.

(** C2, at the scenario of the specification.  BUY 10 @ 150 through
    [update_portfolio] debits the balance by 10 * 150; the same order through
    [update_crypto_portfolio] returns [True] and leaves the balance at its
    100000, and so does a SELL 4 @ 200 that follows: the crypto method has no
    statement on [users]. *)
Theorem crypto_order_leaves_balance_at_scenario :
  update_portfolio db0 1 "AAPL" 10 150 true = Returns db1 true /\
  balance_of db1 1 = Some (default_balance - 10 * 150) /\
  update_crypto_portfolio db0 1 "BTC" 10 150 true = Returns db1_crypto true /\
  balance_of db1_crypto 1 = Some default_balance /\
  ~ default_balance == default_balance - 10 * 150 /\
  exists db2,
    update_crypto_portfolio db1_crypto 1 "BTC" 4 200 false = Returns db2 true /\
    balance_of db2 1 = Some default_balance /\
    ~ default_balance == default_balance + 4 * 200.
Proof.
  split; [reflexivity|]. split; [reflexivity|].
  split; [reflexivity|]. split; [reflexivity|].
  split; [intros H; vm_compute in H; discriminate|].
  eexists. split; [reflexivity|]. split; [reflexivity|].
  intros H; vm_compute in H; discriminate.
Qed.

(** C3, at the scenario of the specification.  BUY 10 @ 150 through
    [update_portfolio] appends the row (BUY, 10, 150) to the log; the same
    order through [update_crypto_portfolio] returns [True] and appends
    nothing, and so does a SELL 4 @ 200 that follows: the crypto method has
    no statement on [transactions]. *)
Theorem crypto_order_logs_nothing_at_scenario :
  update_portfolio db0 1 "AAPL" 10 150 true = Returns db1 true /\
  transactions db1 = transactions db0 ++ [mk_transaction 1 "AAPL" "BUY" 10 150] /\
  update_crypto_portfolio db0 1 "BTC" 10 150 true = Returns db1_crypto true /\
  transactions db1_crypto = transactions db0 /\
  exists db2,
    update_crypto_portfolio db1_crypto 1 "BTC" 4 200 false = Returns db2 true /\
    transactions db2 = [].
Proof.
  split; [reflexivity|]. split; [reflexivity|].
  split; [reflexivity|]. split; [reflexivity|].
  eexists. split; reflexivity.
Qed.

(** * Further properties of the ledger *)

(** ** Rows that a statement does not select *)

Section OtherRows.

Context {A : Type}.
Variable key : A -> bool.

Lemma find_map_fixed (f : A -> A) (l : list A) :
  (forall r, key r = true -> f r = r) ->
  (forall r, key r = false -> key (f r) = false) ->
  find key (map f l) = find key l.
Proof.
  intros Hfix Hmiss. induction l as [|r l IH]; simpl; [reflexivity|].
  destruct (key r) eqn:E.
  - rewrite (Hfix r E), E. reflexivity.
  - rewrite (Hmiss r E). exact IH.
Qed.

Lemma find_app_miss (l : list A) (x : A) :
  key x = false -> find key (l ++ [x]) = find key l.
Proof.
  intros Hx. rewrite find_app_first. simpl. rewrite Hx.
  now destruct (find key l).
Qed.

Lemma find_filter_kept (g : A -> bool) (l : list A) :
  (forall r, key r = true -> g r = true) ->
  find key (filter g l) = find key l.
Proof.
  intros Hg. induction l as [|r l IH]; simpl; [reflexivity|].
  destruct (g r) eqn:Eg; simpl.
  - destruct (key r); [reflexivity | exact IH].
  - destruct (key r) eqn:Ek; [|exact IH].
    rewrite (Hg r Ek) in Eg. discriminate.
Qed.

Lemma filter_out_absent (l : list A) :
  find key l = None -> filter (fun r => negb (key r)) l = l.
Proof.
  induction l as [|r l IH]; simpl; [reflexivity|].
  destruct (key r); [discriminate|]. simpl. intros H. now rewrite IH.
Qed.

Lemma filter_out_appended (l : list A) (x : A) :
  find key l = None -> key x = true ->
  filter (fun r => negb (key r)) (l ++ [x]) = l.
Proof.
  intros Hl Hx. rewrite filter_app, (filter_out_absent l Hl). simpl.
  rewrite Hx. simpl. apply app_nil_r.
Qed.

End OtherRows.

Lemma portfolio_key_other (user_id u : Z) (symbol s : string) (r : portfolio_row) :
  u <> user_id \/ s <> symbol ->
  portfolio_key u s r = true -> portfolio_key user_id symbol r = false.
Proof.
  unfold portfolio_key. intros Hne Hk.
  apply andb_true_iff in Hk. destruct Hk as [Hu Hs].
  apply Z.eqb_eq in Hu. apply String.eqb_eq in Hs.
  apply andb_false_iff.
  destruct Hne as [Hne|Hne]; [left; apply Z.eqb_neq | right; apply String.eqb_neq];
    congruence.
Qed.

Lemma crypto_key_other (user_id u : Z) (symbol s : string) (r : crypto_row) :
  u <> user_id \/ s <> symbol ->
  crypto_key u s r = true -> crypto_key user_id symbol r = false.
Proof.
  unfold crypto_key. intros Hne Hk.
  apply andb_true_iff in Hk. destruct Hk as [Hu Hs].
  apply Z.eqb_eq in Hu. apply String.eqb_eq in Hs.
  apply andb_false_iff.
  destruct Hne as [Hne|Hne]; [left; apply Z.eqb_neq | right; apply String.eqb_neq];
    congruence.
Qed.

(** ** The statement behind each successful order *)

Lemma update_portfolio_writes
  (db db' : Database) (user_id : Z) (symbol : string) (shares price : Q)
  (is_buy : bool) :
  update_portfolio db user_id symbol shares price is_buy = Returns db' true ->
  exists mid,
    position_write db user_id symbol mid /\
    db' = record_order mid user_id symbol shares price is_buy.
Proof.
  unfold update_portfolio.
  destruct is_buy;
    destruct (select_position db user_id symbol) as [[q0 a0]|] eqn:Hsel;
    try discriminate.
  - destruct (truediv _ _); [|discriminate].
    intros H; injection H as <-. eexists. split; [|reflexivity].
    apply write_update. congruence.
  - intros H; injection H as <-. eexists. split; [|reflexivity].
    now apply write_insert.
  - destruct (Qle_bool shares q0); [|discriminate].
    destruct (Qgt_bool _ _); intros H; injection H as <-;
      (eexists; split; [|reflexivity]).
    + apply write_shares. congruence.
    + apply write_delete. congruence.
Qed.

Lemma update_crypto_writes
  (db db' : Database) (user_id : Z) (symbol : string) (amount price : Q)
  (is_buy : bool) :
  update_crypto_portfolio db user_id symbol amount price is_buy = Returns db' true ->
  crypto_write db user_id symbol db'.
Proof.
  unfold update_crypto_portfolio.
  destruct is_buy;
    destruct (select_crypto db user_id symbol) as [[q0 a0]|] eqn:Hsel;
    try discriminate.
  - destruct (truediv _ _); [|discriminate].
    intros H; injection H as <-. apply cwrite_update. congruence.
  - intros H; injection H as <-. now apply cwrite_insert.
  - destruct (Qle_bool amount q0); [|discriminate].
    destruct (Qgt_bool _ _); intros H; injection H as <-.
    + apply cwrite_amount. congruence.
    + apply cwrite_delete. congruence.
Qed.

Lemma update_crypto_portfolio_false
  (db db' : Database) (user_id : Z) (symbol : string) (amount price : Q)
  (is_buy : bool) :
  update_crypto_portfolio db user_id symbol amount price is_buy = Returns db' false ->
  db' = db /\ is_buy = false.
Proof.
  unfold update_crypto_portfolio.
  destruct is_buy; destruct (select_crypto db user_id symbol) as [[q0 a0]|];
    try discriminate.
  - destruct (truediv _ _); discriminate.
  - destruct (Qle_bool amount q0); [destruct (Qgt_bool _ _); discriminate|].
    intros H; injection H as <-. now split.
  - intros H; injection H as <-. now split.
Qed.

Lemma position_write_rest (db mid : Database) (user_id : Z) (symbol : string) :
  position_write db user_id symbol mid ->
  users mid = users db /\ transactions mid = transactions db /\
  crypto_portfolio mid = crypto_portfolio db.
Proof. intros []; now simpl. Qed.

Lemma crypto_write_rest (db db' : Database) (user_id : Z) (symbol : string) :
  crypto_write db user_id symbol db' ->
  users db' = users db /\ transactions db' = transactions db /\
  portfolio db' = portfolio db.
Proof. intros []; now simpl. Qed.

Lemma position_write_other
  (db mid : Database) (user_id u : Z) (symbol s : string) :
  position_write db user_id symbol mid ->
  u <> user_id \/ s <> symbol ->
  select_position mid u s = select_position db u s.
Proof.
  intros Hw Hne.
  pose proof (portfolio_key_other user_id u symbol s) as Hother.
  destruct Hw; unfold select_position; simpl.
  - rewrite find_map_fixed; [reflexivity| |].
    + intros r Hk. now rewrite (Hother r Hne Hk).
    + intros r Hk. now destruct (portfolio_key user_id symbol r).
  - rewrite find_app_miss; [reflexivity|].
    destruct (portfolio_key u s _) eqn:E; [|reflexivity].
    apply (Hother _ Hne) in E. now rewrite portfolio_key_refl in E.
  - rewrite find_map_fixed; [reflexivity| |].
    + intros r Hk. now rewrite (Hother r Hne Hk).
    + intros r Hk. now destruct (portfolio_key user_id symbol r).
  - rewrite find_filter_kept; [reflexivity|].
    intros r Hk. now rewrite (Hother r Hne Hk).
Qed.

Lemma crypto_write_other
  (db db' : Database) (user_id u : Z) (symbol s : string) :
  crypto_write db user_id symbol db' ->
  u <> user_id \/ s <> symbol ->
  select_crypto db' u s = select_crypto db u s.
Proof.
  intros Hw Hne.
  pose proof (crypto_key_other user_id u symbol s) as Hother.
  destruct Hw; unfold select_crypto; simpl.
  - rewrite find_map_fixed; [reflexivity| |].
    + intros r Hk. now rewrite (Hother r Hne Hk).
    + intros r Hk. now destruct (crypto_key user_id symbol r).
  - rewrite find_app_miss; [reflexivity|].
    destruct (crypto_key u s _) eqn:E; [|reflexivity].
    apply (Hother _ Hne) in E. now rewrite crypto_key_refl in E.
  - rewrite find_map_fixed; [reflexivity| |].
    + intros r Hk. now rewrite (Hother r Hne Hk).
    + intros r Hk. now destruct (crypto_key user_id symbol r).
  - rewrite find_filter_kept; [reflexivity|].
    intros r Hk. now rewrite (Hother r Hne Hk).
Qed.

(** ** What an order leaves alone *)

(** X1. An order on one symbol of one user, in one asset class, changes no
    other position: what is read for any other asset class, user or symbol is
    what was read before the order. *)
Theorem order_leaves_other_positions
  (c c' : asset_class) (db db' : Database) (user_id u : Z) (symbol s : string)
  (quantity price : Q) (is_buy ok : bool) :
  ledger c db user_id symbol quantity price is_buy = Returns db' ok ->
  c' <> c \/ u <> user_id \/ s <> symbol ->
  position c' db' u s = position c' db u s.
Proof.
  intros Hret Hne. destruct ok.
  - destruct c; cbn [ledger] in Hret.
    + apply update_portfolio_writes in Hret. destruct Hret as [mid [Hw ->]].
      destruct c'; cbn [position].
      * rewrite select_record_order. apply (position_write_other _ _ _ _ _ _ Hw).
        destruct Hne as [Hne|Hne]; [congruence | exact Hne].
      * apply position_write_rest in Hw. destruct Hw as [_ [_ Hc]].
        unfold select_crypto. rewrite crypto_record_order. now rewrite Hc.
    + apply update_crypto_writes in Hret.
      destruct c'; cbn [position].
      * apply crypto_write_rest in Hret. destruct Hret as [_ [_ Hp]].
        unfold select_position. now rewrite Hp.
      * apply (crypto_write_other _ _ _ _ _ _ Hret).
        destruct Hne as [Hne|Hne]; [congruence | exact Hne].
  - destruct c; cbn [ledger] in Hret.
    + apply update_portfolio_false in Hret. now destruct Hret as [-> _].
    + apply update_crypto_portfolio_false in Hret. now destruct Hret as [-> _].
Qed.

Lemma order_leaves_other_positions_witness :
  exists db',
    ledger EQUITY db1 1 "AAPL" 4 200 false = Returns db' true /\
    position CRYPTO db' 1 "AAPL" = position CRYPTO db1 1 "AAPL" /\
    position EQUITY db' 1 "MSFT" = position EQUITY db1 1 "MSFT".
Proof.
  eexists. split; [reflexivity|]. split.
  - apply (order_leaves_other_positions EQUITY CRYPTO db1 _ 1 1 "AAPL" "AAPL"
             4 200 false true).
    + reflexivity.
    + left. discriminate.
  - apply (order_leaves_other_positions EQUITY EQUITY db1 _ 1 1 "AAPL" "MSFT"
             4 200 false true).
    + reflexivity.
    + right. right. discriminate.
Defined.

Section OtherUsers.

Context {A : Type}.
Variable g : A -> bool.

Lemma filter_map_fixed (f : A -> A) (l : list A) :
  (forall r, g r = true -> f r = r) ->
  (forall r, g r = false -> g (f r) = false) ->
  filter g (map f l) = filter g l.
Proof.
  intros Hfix Hmiss. induction l as [|r l IH]; simpl; [reflexivity|].
  destruct (g r) eqn:E.
  - rewrite (Hfix r E), E. now rewrite IH.
  - rewrite (Hmiss r E). exact IH.
Qed.

Lemma filter_app_miss (l : list A) (x : A) :
  g x = false -> filter g (l ++ [x]) = filter g l.
Proof.
  intros Hx. rewrite filter_app. simpl. rewrite Hx. apply app_nil_r.
Qed.

Lemma filter_filter_kept (h : A -> bool) (l : list A) :
  (forall r, g r = true -> h r = true) ->
  filter g (filter h l) = filter g l.
Proof.
  intros Hh. induction l as [|r l IH]; simpl; [reflexivity|].
  destruct (h r) eqn:Eh; simpl.
  - destruct (g r); [now rewrite IH | exact IH].
  - destruct (g r) eqn:Eg; [|exact IH].
    rewrite (Hh r Eg) in Eh. discriminate.
Qed.

End OtherUsers.

Lemma portfolio_key_user (user_id u : Z) (symbol : string) (r : portfolio_row) :
  u <> user_id -> (p_user_id r =? u)%Z = true ->
  portfolio_key user_id symbol r = false.
Proof.
  intros Hne Hu. apply Z.eqb_eq in Hu. unfold portfolio_key.
  apply andb_false_iff. left. apply Z.eqb_neq. congruence.
Qed.

Lemma position_write_other_user
  (db mid : Database) (user_id u : Z) (symbol : string) :
  position_write db user_id symbol mid ->
  u <> user_id ->
  get_portfolio mid u = get_portfolio db u.
Proof.
  intros Hw Hne.
  pose proof (portfolio_key_user user_id u symbol) as Hother.
  unfold get_portfolio. f_equal.
  destruct Hw; simpl.
  - apply filter_map_fixed.
    + intros r Hu. now rewrite (Hother r Hne Hu).
    + intros r Hu. now destruct (portfolio_key user_id symbol r).
  - apply filter_app_miss. simpl. now apply Z.eqb_neq.
  - apply filter_map_fixed.
    + intros r Hu. now rewrite (Hother r Hne Hu).
    + intros r Hu. now destruct (portfolio_key user_id symbol r).
  - apply filter_filter_kept. intros r Hu. now rewrite (Hother r Hne Hu).
Qed.

Lemma balance_of_update_balance_other (db : Database) (delta : Q) (user_id u : Z) :
  u <> user_id ->
  balance_of (update_balance db delta user_id) u = balance_of db u.
Proof.
  intros Hne. unfold balance_of, update_balance; simpl.
  rewrite find_map_fixed; [reflexivity| |].
  - intros r Hu. apply Z.eqb_eq in Hu.
    assert (E : (u_id r =? user_id)%Z = false) by (apply Z.eqb_neq; congruence).
    now rewrite E.
  - intros r Hu. now destruct (u_id r =? user_id)%Z.
Qed.

(** X2. An order of one user touches nothing of another user: the balance of
    the other user and the list [get_portfolio] gives for that user are the
    same after the order as before, in both asset classes. *)
Theorem order_leaves_other_users
  (c : asset_class) (db db' : Database) (user_id u : Z) (symbol : string)
  (quantity price : Q) (is_buy ok : bool) :
  ledger c db user_id symbol quantity price is_buy = Returns db' ok ->
  u <> user_id ->
  balance_of db' u = balance_of db u /\
  get_portfolio db' u = get_portfolio db u.
Proof.
  intros Hret Hne. destruct ok.
  - destruct c; cbn [ledger] in Hret.
    + apply update_portfolio_writes in Hret. destruct Hret as [mid [Hw ->]].
      split.
      * unfold record_order. rewrite (balance_of_update_balance_other _ _ _ _ Hne).
        apply position_write_rest in Hw. destruct Hw as [Hu _].
        unfold balance_of; simpl. now rewrite Hu.
      * unfold get_portfolio. rewrite portfolio_record_order.
        apply (position_write_other_user _ _ _ _ _ Hw Hne).
    + apply update_crypto_writes, crypto_write_rest in Hret.
      destruct Hret as [Hu [_ Hp]].
      unfold balance_of, get_portfolio. now rewrite Hu, Hp.
  - destruct c; cbn [ledger] in Hret.
    + apply update_portfolio_false in Hret. now destruct Hret as [-> _].
    + apply update_crypto_portfolio_false in Hret. now destruct Hret as [-> _].
Qed.

Lemma order_leaves_other_users_witness :
  exists db',
    ledger EQUITY db_two 2 "AAPL" 5 180 true = Returns db' true /\
    balance_of db' 1 = balance_of db_two 1 /\
    get_portfolio db' 1 = get_portfolio db_two 1.
Proof.
  eexists. split; [reflexivity|].
  apply (order_leaves_other_users EQUITY db_two _ 2 1 "AAPL" 5 180 true true).
  - reflexivity.
  - discriminate.
Defined.

(** ** One row per user and symbol *)

Section Keys.

Context {A K : Type}.
Variable k : A -> K.

Lemma map_map_same_key (f : A -> A) (l : list A) :
  (forall r, k (f r) = k r) -> map k (map f l) = map k l.
Proof.
  intros Hk. rewrite map_map. apply map_ext. exact Hk.
Qed.

Lemma NoDup_map_filter (h : A -> bool) (l : list A) :
  NoDup (map k l) -> NoDup (map k (filter h l)).
Proof.
  induction l as [|r l IH]; simpl; [trivial|].
  intros Hnd. inversion Hnd as [|? ? Hnotin Hrest]; subst.
  destruct (h r); [|now apply IH]. simpl. constructor; [|now apply IH].
  intros Hin. apply Hnotin.
  apply in_map_iff in Hin. destruct Hin as [x [Hx Hin]].
  apply filter_In in Hin. apply in_map_iff. exists x. tauto.
Qed.

Lemma NoDup_map_app_one (l : list A) (x : A) :
  NoDup (map k l) -> ~ In (k x) (map k l) -> NoDup (map k (l ++ [x])).
Proof.
  intros Hnd Hnotin. rewrite map_app. simpl.
  apply NoDup_app.
  - exact Hnd.
  - constructor; [intros [] | constructor].
  - intros y Hy [<-|[]]. contradiction.
Qed.

End Keys.

Lemma portfolio_absent_key (l : list portfolio_row) (user_id : Z) (symbol : string) :
  find (portfolio_key user_id symbol) l = None ->
  ~ In (user_id, symbol) (map (fun r => (p_user_id r, p_symbol r)) l).
Proof.
  intros Hfind Hin. apply in_map_iff in Hin. destruct Hin as [r [Hr Hin]].
  pose proof (find_none _ _ Hfind r Hin) as Hk.
  injection Hr as Hu Hs. unfold portfolio_key in Hk.
  now rewrite Hu, Hs, Z.eqb_refl, String.eqb_refl in Hk.
Qed.

Lemma crypto_absent_key (l : list crypto_row) (user_id : Z) (symbol : string) :
  find (crypto_key user_id symbol) l = None ->
  ~ In (user_id, symbol) (map (fun r => (c_user_id r, c_symbol r)) l).
Proof.
  intros Hfind Hin. apply in_map_iff in Hin. destruct Hin as [r [Hr Hin]].
  pose proof (find_none _ _ Hfind r Hin) as Hk.
  injection Hr as Hu Hs. unfold crypto_key in Hk.
  now rewrite Hu, Hs, Z.eqb_refl, String.eqb_refl in Hk.
Qed.

Lemma position_write_unique (db mid : Database) (user_id : Z) (symbol : string) :
  position_write db user_id symbol mid ->
  unique_positions db -> unique_positions mid.
Proof.
  intros Hw [Hp Hc]. split; [|now destruct Hw].
  destruct Hw as [n a _|q p Habs|n _|_]; simpl.
  - rewrite map_map_same_key; [exact Hp|].
    intros r. now destruct (portfolio_key user_id symbol r).
  - apply NoDup_map_app_one; [exact Hp|]. simpl.
    apply portfolio_absent_key. unfold select_position in Habs.
    now destruct (find _ (portfolio db)).
  - rewrite map_map_same_key; [exact Hp|].
    intros r. now destruct (portfolio_key user_id symbol r).
  - now apply NoDup_map_filter.
Qed.

Lemma crypto_write_unique (db db' : Database) (user_id : Z) (symbol : string) :
  crypto_write db user_id symbol db' ->
  unique_positions db -> unique_positions db'.
Proof.
  intros Hw [Hp Hc]. split; [now destruct Hw|].
  destruct Hw as [n a _|q p Habs|n _|_]; simpl.
  - rewrite map_map_same_key; [exact Hc|].
    intros r. now destruct (crypto_key user_id symbol r).
  - apply NoDup_map_app_one; [exact Hc|]. simpl.
    apply crypto_absent_key. unfold select_crypto in Habs.
    now destruct (find _ (crypto_portfolio db)).
  - rewrite map_map_same_key; [exact Hc|].
    intros r. now destruct (crypto_key user_id symbol r).
  - now apply NoDup_map_filter.
Qed.

(** X3. The schema lets a position table hold several rows for one user and
    one symbol, the methods never make one: an order, whatever it returns,
    takes a store with at most one row per user and symbol in each position
    table to a store of the same kind. *)
Theorem orders_keep_one_row_per_symbol
  (c : asset_class) (db db' : Database) (user_id : Z) (symbol : string)
  (quantity price : Q) (is_buy ok : bool) :
  ledger c db user_id symbol quantity price is_buy = Returns db' ok ->
  unique_positions db ->
  unique_positions db'.
Proof.
  intros Hret Huniq. destruct ok.
  - destruct c; cbn [ledger] in Hret.
    + apply update_portfolio_writes in Hret. destruct Hret as [mid [Hw ->]].
      apply (position_write_unique _ _ _ _ Hw Huniq).
    + apply update_crypto_writes in Hret.
      apply (crypto_write_unique _ _ _ _ Hret Huniq).
  - destruct c; cbn [ledger] in Hret.
    + apply update_portfolio_false in Hret. now destruct Hret as [-> _].
    + apply update_crypto_portfolio_false in Hret. now destruct Hret as [-> _].
Qed.

Lemma orders_keep_one_row_per_symbol_witness :
  exists db',
    ledger EQUITY db1 1 "MSFT" 3 400 true = Returns db' true /\
    unique_positions db'.
Proof.
  eexists. split; [reflexivity|].
  apply (orders_keep_one_row_per_symbol EQUITY db1 _ 1 "MSFT" 3 400 true true).
  - reflexivity.
  - split; simpl; repeat constructor. intros [].
Defined.

(** ** [get_portfolio] against the position the ledger reads *)

Lemma find_In_unique (l : list portfolio_row) (user_id : Z) (symbol : string)
  (r : portfolio_row) :
  NoDup (map (fun r => (p_user_id r, p_symbol r)) l) ->
  In r l -> portfolio_key user_id symbol r = true ->
  find (portfolio_key user_id symbol) l = Some r.
Proof.
  induction l as [|x l IH]; simpl; [intros _ []|].
  intros Hnd Hin Hk. inversion Hnd as [|? ? Hnotin Hrest]; subst.
  destruct Hin as [->|Hin]; [now rewrite Hk|].
  destruct (portfolio_key user_id symbol x) eqn:Ex; [|now apply IH].
  exfalso. apply Hnotin. apply in_map_iff. exists r. split; [|exact Hin].
  unfold portfolio_key in *.
  apply andb_true_iff in Hk. apply andb_true_iff in Ex.
  destruct Hk as [Hu Hs]. destruct Ex as [Hu' Hs'].
  apply Z.eqb_eq in Hu, Hu'. apply String.eqb_eq in Hs, Hs'. congruence.
Qed.

(** X4. In a store with at most one row per user and symbol, [get_portfolio]
    lists a triple (symbol, shares, avg_price) for a user exactly when the
    ledger reads that position for the symbol. *)
Theorem get_portfolio_lists_positions
  (db : Database) (user_id : Z) (symbol : string) (q a : Q) :
  unique_positions db ->
  (In (symbol, q, a) (get_portfolio db user_id)
   <-> select_position db user_id symbol = Some (q, a)).
Proof.
  intros [Hp _]. unfold get_portfolio, select_position. split.
  - intros Hin. apply in_map_iff in Hin. destruct Hin as [r [Hr Hin]].
    apply filter_In in Hin. destruct Hin as [Hin Hu].
    injection Hr as Hs Hq Ha.
    assert (Hk : portfolio_key user_id symbol r = true).
    { unfold portfolio_key. rewrite Hu, Hs. simpl. apply String.eqb_refl. }
    rewrite (find_In_unique _ _ _ _ Hp Hin Hk). now rewrite Hq, Ha.
  - destruct (find _ (portfolio db)) as [r|] eqn:E; [|discriminate].
    intros H. injection H as Hq Ha.
    apply find_some in E. destruct E as [Hin Hk].
    unfold portfolio_key in Hk. apply andb_true_iff in Hk. destruct Hk as [Hu Hs].
    apply String.eqb_eq in Hs.
    apply in_map_iff. exists r. split; [now rewrite Hs, Hq, Ha|].
    apply filter_In. now split.
Qed.

Lemma get_portfolio_lists_positions_witness :
  In ("AAPL"%string, 10, 150) (get_portfolio db1 1)
  <-> select_position db1 1 "AAPL" = Some (10, 150).
Proof.
  apply (get_portfolio_lists_positions db1 1 "AAPL" 10 150).
  split; simpl; repeat constructor. intros [].
Defined.

(** ** What an order can return *)

Lemma partial_sell_cases
  (c : asset_class) (db : Database) (user_id : Z) (symbol : string)
  (quantity price q0 a0 : Q) :
  position c db user_id symbol = Some (q0, a0) ->
  quantity < q0 ->
  exists db', ledger c db user_id symbol quantity price false = Returns db' true.
Proof.
  intros Hpos Hlt. destruct c; cbn [ledger position] in *; eexists.
  - apply (update_portfolio_sell_part _ _ _ _ _ _ _ Hpos Hlt).
  - apply (update_crypto_sell_part _ _ _ _ _ _ _ Hpos Hlt).
Qed.

Lemma ledger_sell_cases
  (c : asset_class) (db : Database) (user_id : Z) (symbol : string)
  (quantity price : Q) :
  (holds_less_than (position c db user_id symbol) quantity /\
   ledger c db user_id symbol quantity price false = Returns db false) \/
  (exists q0 a0 db',
     position c db user_id symbol = Some (q0, a0) /\ quantity <= q0 /\
     ledger c db user_id symbol quantity price false = Returns db' true).
Proof.
  destruct (position c db user_id symbol) as [[q0 a0]|] eqn:Hpos.
  - destruct (Q_dec quantity q0) as [[Hlt|Hgt]|Heq].
    + right. exists q0, a0.
      destruct (partial_sell_cases c db user_id symbol quantity price q0 a0 Hpos Hlt)
        as [db' Hret].
      exists db'. repeat split; [lra | exact Hret].
    + left. split; [exact Hgt|].
      apply ledger_sell_refused. now rewrite Hpos.
    + right. exists q0, a0.
      assert (Heq' : q0 == quantity) by lra.
      destruct c; cbn [ledger position] in *; eexists.
      * repeat split; [lra|]. apply (update_portfolio_sell_all _ _ _ _ _ _ _ Hpos Heq').
      * repeat split; [lra|]. apply (update_crypto_sell_all _ _ _ _ _ _ _ Hpos Heq').
  - left. split; [exact I|]. apply ledger_sell_refused. now rewrite Hpos.
Qed.

(** X5. A SELL never raises, and it succeeds exactly when there is a row that
    holds at least the quantity asked, in both asset classes. *)
Theorem sell_succeeds_iff_covered
  (c : asset_class) (db : Database) (user_id : Z) (symbol : string)
  (quantity price : Q) :
  ledger c db user_id symbol quantity price false <> ZeroDivisionError /\
  ((exists db', ledger c db user_id symbol quantity price false = Returns db' true)
   <-> (exists q0 a0,
          position c db user_id symbol = Some (q0, a0) /\ quantity <= q0)).
Proof.
  destruct (ledger_sell_cases c db user_id symbol quantity price)
    as [[Hless Hret]|[q0 [a0 [db' [Hpos [Hle Hret]]]]]].
  - split; [rewrite Hret; discriminate|]. split.
    + intros [db' Hret']. rewrite Hret in Hret'. discriminate.
    + intros [q0 [a0 [Hpos Hle]]]. rewrite Hpos in Hless. simpl in Hless.
      exfalso. exact (Qlt_not_le _ _ Hless Hle).
  - split; [rewrite Hret; discriminate|]. split.
    + intros _. now exists q0, a0.
    + intros _. now exists db'.
Qed.


(** ** Orders one after the other *)



(** X8. Buying a quantity of a symbol the user does not hold and selling the
    same quantity back both succeed; they leave the [portfolio] table exactly
    as it was, the balance changed by quantity * (sell price - buy price),
    and two rows more in the log, the BUY and then the SELL. *)
Theorem buy_then_sell_restores_portfolio
  (db : Database) (user_id : Z) (symbol : string) (quantity p_buy p_sell b : Q) :
  select_position db user_id symbol = None ->
  balance_of db user_id = Some b ->
  exists db1' db2' b2,
    update_portfolio db user_id symbol quantity p_buy true = Returns db1' true /\
    update_portfolio db1' user_id symbol quantity p_sell false = Returns db2' true /\
    portfolio db2' = portfolio db /\
    balance_of db2' user_id = Some b2 /\
    b2 == b + quantity * (p_sell - p_buy) /\
    transactions db2'
    = transactions db ++ [mk_transaction user_id symbol "BUY" quantity p_buy;
                          mk_transaction user_id symbol "SELL" quantity p_sell].
Proof.
  intros Hsel Hbal.
  pose proof (update_portfolio_buy_new db user_id symbol quantity p_buy Hsel) as Hbuy.
  set (dbi := record_order (insert_position db user_id symbol quantity p_buy)
                user_id symbol quantity p_buy true) in *.
  assert (Hheld : select_position dbi user_id symbol = Some (quantity, p_buy)).
  { unfold dbi. rewrite select_record_order. now apply select_insert_position. }
  pose proof (update_portfolio_sell_all dbi user_id symbol quantity p_sell
                quantity p_buy Hheld (Qeq_refl quantity)) as Hsell.
  exists dbi. eexists. eexists.
  split; [exact Hbuy|]. split; [exact Hsell|]. split; [|split; [|split]].
  - rewrite portfolio_record_order. unfold delete_position, dbi; simpl.
    apply filter_out_appended; [|apply portfolio_key_refl].
    unfold select_position in Hsel. now destruct (find _ (portfolio db)).
  - rewrite balance_record_order.
    replace (balance_of (delete_position dbi user_id symbol) user_id)
      with (balance_of dbi user_id) by reflexivity.
    unfold dbi. rewrite balance_record_order.
    replace (balance_of (insert_position db user_id symbol quantity p_buy) user_id)
      with (balance_of db user_id) by reflexivity.
    rewrite Hbal. reflexivity.
  - simpl. ring.
  - rewrite transactions_record_order. unfold dbi; simpl.
    now rewrite <- app_assoc.
Qed.

Lemma buy_then_sell_restores_portfolio_witness :
  exists db1' db2' b2,
    update_portfolio db1 1 "MSFT" 3 400 true = Returns db1' true /\
    update_portfolio db1' 1 "MSFT" 3 410 false = Returns db2' true /\
    portfolio db2' = portfolio db1 /\
    balance_of db2' 1 = Some b2 /\
    b2 == 98500 + 3 * (410 - 400) /\
    transactions db2'
    = transactions db1 ++ [mk_transaction 1 "MSFT" "BUY" 3 400;
                           mk_transaction 1 "MSFT" "SELL" 3 410].
Proof.
  apply (buy_then_sell_restores_portfolio db1 1 "MSFT" 3 400 410 98500);
    reflexivity.
Defined.

(** ** The transaction log *)

(** X9. The log only grows at its end: whatever an order returns, in either
    asset class, the rows logged before it are still there, unchanged and in
    the same order, followed by at most one new row. *)
Theorem log_is_append_only
  (c : asset_class) (db db' : Database) (user_id : Z) (symbol : string)
  (quantity price : Q) (is_buy ok : bool) :
  ledger c db user_id symbol quantity price is_buy = Returns db' ok ->
  exists added,
    transactions db' = transactions db ++ added /\ (List.length added <= 1)%nat.
Proof.
  intros Hret. destruct c; cbn [ledger] in Hret.
  - destruct ok.
    + apply equity_order_appends_one_row in Hret.
      eexists. split; [exact Hret|]. simpl. constructor.
    + apply update_portfolio_false in Hret. destruct Hret as [-> _].
      exists []. split; [now rewrite app_nil_r | simpl; repeat constructor].
  - apply crypto_order_keeps_balance_and_log in Hret. destruct Hret as [_ ->].
    exists []. split; [now rewrite app_nil_r | simpl; repeat constructor].
Qed.

Lemma log_is_append_only_witness :
  exists db' added,
    ledger EQUITY db1 1 "AAPL" 4 200 false = Returns db' true /\
    transactions db' = transactions db1 ++ added /\ (List.length added <= 1)%nat.
Proof.
  eexists. 
  destruct (log_is_append_only EQUITY db1 _ 1 "AAPL" 4 200 false true eq_refl)
    as [added Hadded].
  exists added. split; [reflexivity | exact Hadded].
Defined.

Lemma net_cash_app (user_id : Z) (log : list transaction_row) (t : transaction_row) :
  net_cash user_id (log ++ [t])
  == net_cash user_id log + (if (t_user_id t =? user_id)%Z then cash_of t else 0).
Proof.
  induction log as [|x log IH]; simpl; [ring|]. rewrite IH. ring.
Qed.

(** X10. The balance moves with the log: through any call of
    [update_portfolio], for the user who orders as for any other user, the
    balance changes by exactly the cash that the rows added to the log move
    for that user (out on a BUY row, in on a SELL row). *)
Theorem equity_balance_follows_log
  (db db' : Database) (user_id u : Z) (symbol : string) (quantity price b : Q)
  (is_buy ok : bool) :
  update_portfolio db user_id symbol quantity price is_buy = Returns db' ok ->
  balance_of db u = Some b ->
  exists b',
    balance_of db' u = Some b' /\
    b' - net_cash u (transactions db') == b - net_cash u (transactions db).
Proof.
  intros Hret Hbal. destruct ok.
  - pose proof (equity_order_appends_one_row _ _ _ _ _ _ _ Hret) as Hlog.
    destruct (Z.eq_dec u user_id) as [->|Hne].
    + pose proof (equity_order_adjusts_balance _ _ _ _ _ _ _ Hret) as Hb.
      rewrite Hbal in Hb. simpl in Hb. eexists. split; [exact Hb|].
      rewrite Hlog, net_cash_app. simpl. rewrite Z.eqb_refl.
      unfold cash_of; simpl. destruct is_buy; simpl; ring.
    + destruct (order_leaves_other_users EQUITY _ _ _ _ _ _ _ _ _ Hret Hne)
        as [Hb _].
      exists b. split; [now rewrite Hb|].
      rewrite Hlog, net_cash_app. simpl.
      assert (E : (user_id =? u)%Z = false) by (apply Z.eqb_neq; congruence).
      rewrite E. ring.
  - apply update_portfolio_false in Hret. destruct Hret as [-> _].
    exists b. split; [exact Hbal | reflexivity].
Qed.

Lemma equity_balance_follows_log_witness :
  exists db' b',
    update_portfolio db1 1 "AAPL" 4 200 false = Returns db' true /\
    balance_of db' 1 = Some b' /\
    b' - net_cash 1 (transactions db') == 98500 - net_cash 1 (transactions db1).
Proof.
  eexists.
  destruct (equity_balance_follows_log db1 _ 1 1 "AAPL" 4 200 98500 false true
              eq_refl eq_refl) as [b' Hb'].
  exists b'. split; [reflexivity | exact Hb'].
Defined.

(** ** The forms of the trading page *)




(** X13. Through the buy form the balance does not go below zero: when the
    session holds the balance of the user's row and that balance is not
    negative, the balance of the row after a submission of the form, whatever
    the quantity and the price, is not negative either. *)
Theorem buy_form_keeps_balance_nonnegative
  (db db' : Database) (user user' : Trading.session_user) (symbol : string)
  (shares_to_buy current_price : Q) (report : Trading.message) :
  session_in_sync db user ->
  0 <= Trading.s_balance user ->
  Trading.buy_form db user symbol shares_to_buy current_price
  = Returns db' (user', report) ->
  exists b', balance_of db' (Trading.s_id user) = Some b' /\ 0 <= b'.
Proof.
  unfold session_in_sync. intros Hsync Hbal. unfold Trading.buy_form.
  destruct (Qgt_bool _ _) eqn:Hfunds.
  - intros H; injection H as <- _ _. now exists (Trading.s_balance user).
  - apply Qgt_bool_false_iff in Hfunds.
    destruct (update_portfolio db (Trading.s_id user) symbol shares_to_buy
                current_price true) as [db'' [|]|] eqn:Hret; try discriminate.
    + intros H; injection H as <- _ _.
      rewrite (equity_order_adjusts_balance _ _ _ _ _ _ _ Hret), Hsync.
      eexists. split; [reflexivity|]. lra.
    + apply update_portfolio_false in Hret. destruct Hret; discriminate.
Qed.

Lemma buy_form_keeps_balance_nonnegative_witness :
  exists db' user' report,
    Trading.buy_form db1 (Trading.mk_session 1 "Alice" 98500) "AAPL" 500 197
    = Returns db' (user', report) /\
    exists b', balance_of db' 1 = Some b' /\ 0 <= b'.
Proof.
  eexists. eexists. eexists. split; [reflexivity|].
  eapply (buy_form_keeps_balance_nonnegative db1 _
            (Trading.mk_session 1 "Alice" 98500) _ "AAPL" 500 197
            Trading.success_bought).
  - reflexivity.
  - simpl. lra.
  - reflexivity.
Defined.

(** * Accounts *)

Lemma email_taken_iff (db : Database) (email : string) :
  email_taken db email = true <-> In email (map u_email (users db)).
Proof.
  unfold email_taken. rewrite existsb_exists, in_map_iff.
  split; intros [u [H1 H2]].
  - apply String.eqb_eq in H2. now exists u.
  - exists u. split; [exact H2 | now apply String.eqb_eq].
Qed.

Lemma find_user_by_id (l : list user_row) (r : user_row) :
  NoDup (map u_id l) -> In r l ->
  find (fun u => (u_id u =? u_id r)%Z) l = Some r.
Proof.
  induction l as [|x l IH]; simpl; [intros _ []|].
  intros Hnd Hin. inversion Hnd as [|? ? Hnotin Hrest]; subst.
  destruct Hin as [->|Hin]; [now rewrite Z.eqb_refl|].
  destruct (u_id x =? u_id r)%Z eqn:E; [|now apply IH].
  exfalso. apply Hnotin. apply Z.eqb_eq in E. rewrite E.
  now apply in_map.
Qed.

Lemma find_absent_id (l : list user_row) (user_id : Z) :
  ~ In user_id (map u_id l) ->
  find (fun u => (u_id u =? user_id)%Z) l = None.
Proof.
  induction l as [|x l IH]; simpl; [reflexivity|].
  intros Hnotin. destruct (u_id x =? user_id)%Z eqn:E.
  - exfalso. apply Hnotin. left. now apply Z.eqb_eq.
  - apply IH. intros Hin. apply Hnotin. now right.
Qed.

Section AccountProperties.

Variable sha256_hexdigest : string -> string.

Lemma find_login_absent_email (l : list user_row) (email password : string) :
  ~ In email (map u_email l) ->
  find (fun u => (u_email u =? email)%string
                 && (u_password u =? sha256_hexdigest password)%string) l = None.
Proof.
  induction l as [|x l IH]; simpl; [reflexivity|].
  intros Hnotin.
  destruct (u_email x =? email)%string eqn:E.
  - exfalso. apply Hnotin. left. now apply String.eqb_eq.
  - simpl. apply IH. intros Hin. apply Hnotin. now right.
Qed.

(** X14. An email registers once: after a call of [add_user] for an email,
    whether it created the account or found the email taken, any further
    [add_user] for that email returns [None] and leaves the store and the id
    counter as they are. *)
Theorem second_registration_is_refused
  (db : Database) (sqlite_sequence : Z) (name name' email password password' : string) :
  let '(db1', seq1, _) := add_user sha256_hexdigest db sqlite_sequence
                            name email password in
  add_user sha256_hexdigest db1' seq1 name' email password' = (db1', seq1, None).
Proof.
  unfold add_user. destruct (email_taken db email) eqn:Htaken.
  - now rewrite Htaken.
  - assert (H : email_taken
                  (mk_db (users db ++
                            [mk_user (Z.max sqlite_sequence (max_user_id db) + 1) name
                               email (sha256_hexdigest password) default_balance])
                     (portfolio db) (transactions db) (crypto_portfolio db))
                  email = true).
    { unfold email_taken; simpl. rewrite existsb_app. simpl.
      rewrite String.eqb_refl. now rewrite orb_true_r. }
    now rewrite H.
Qed.

(** X15. Registration and login round trip: when [add_user] returns an id,
    [verify_user] on the store it leaves, with the same email and password,
    returns that id, the name given and the default balance 100000. *)
Theorem registered_user_can_log_in
  (db db' : Database) (sqlite_sequence seq' user_id : Z)
  (name email password : string) :
  add_user sha256_hexdigest db sqlite_sequence name email password
  = (db', seq', Some user_id) ->
  verify_user sha256_hexdigest db' email password
  = Some (Trading.mk_session user_id name default_balance).
Proof.
  unfold add_user. destruct (email_taken db email) eqn:Htaken; [discriminate|].
  intros H. injection H as <- _ <-.
  unfold verify_user; simpl. rewrite find_app_first.
  assert (Hnot : ~ In email (map u_email (users db))).
  { intros Hin. apply email_taken_iff in Hin. congruence. }
  rewrite (find_login_absent_email _ email password Hnot). simpl.
  now rewrite !String.eqb_refl.
Qed.

(** X16. [add_user] keeps the accounts consistent (one row per email, one row
    per id, no id above the counter), and the id it returns is new: above the
    counter, carried by no earlier row, and the id of a row whose balance is
    the default 100000. *)
Theorem add_user_keeps_accounts_consistent
  (db db' : Database) (sqlite_sequence seq' : Z) (name email password : string)
  (result : option Z) :
  accounts_consistent db sqlite_sequence ->
  add_user sha256_hexdigest db sqlite_sequence name email password
  = (db', seq', result) ->
  accounts_consistent db' seq' /\
  (forall user_id, result = Some user_id ->
     (sqlite_sequence < user_id)%Z /\
     ~ In user_id (map u_id (users db)) /\
     balance_of db' user_id = Some default_balance).
Proof.
  intros [Hemails [Hids Hseq]]. unfold add_user.
  destruct (email_taken db email) eqn:Htaken.
  - intros H. injection H as <- <- <-.
    split; [now repeat split|]. discriminate.
  - intros H. injection H as <- <- <-.
    set (new_id := (Z.max sqlite_sequence (max_user_id db) + 1)%Z).
    assert (Hlt : (sqlite_sequence < new_id)%Z)
      by (unfold new_id; pose proof (Z.le_max_l sqlite_sequence (max_user_id db));
          apply Z.lt_succ_r; assumption).
    assert (Hfresh : ~ In new_id (map u_id (users db))).
    { intros Hin. apply in_map_iff in Hin. destruct Hin as [u [Hu Hin]].
      rewrite Forall_forall in Hseq. specialize (Hseq u Hin).
      rewrite Hu in Hseq. apply (Z.lt_irrefl new_id).
      eapply Z.le_lt_trans; eassumption. }
    split; [split; [|split]|]; simpl.
    + apply NoDup_map_app_one; [exact Hemails|]. simpl.
      intros Hin. apply email_taken_iff in Hin. congruence.
    + apply NoDup_map_app_one; [exact Hids | exact Hfresh].
    + apply Forall_app. split.
      * eapply Forall_impl; [|exact Hseq]. simpl. intros u Hu.
        apply Z.lt_le_incl. eapply Z.le_lt_trans; eassumption.
      * constructor; [simpl; apply Z.le_refl | constructor].
    + intros user_id H. injection H as <-.
      split; [exact Hlt|]. split; [exact Hfresh|].
      unfold balance_of; simpl. rewrite find_app_first.
      rewrite (find_absent_id _ _ Hfresh). simpl. now rewrite Z.eqb_refl.
Qed.

(** X17. A registration does not disturb the accounts that are there: a login
    that succeeds before a call of [add_user] returns the same session after
    it. *)
Theorem registration_keeps_logins
  (db db' : Database) (sqlite_sequence seq' : Z) (name email password e p : string)
  (result : option Z) (user : Trading.session_user) :
  add_user sha256_hexdigest db sqlite_sequence name email password
  = (db', seq', result) ->
  verify_user sha256_hexdigest db e p = Some user ->
  verify_user sha256_hexdigest db' e p = Some user.
Proof.
  unfold add_user. destruct (email_taken db email).
  - intros H. now injection H as <- _ _.
  - intros H. injection H as <- _ _.
    unfold verify_user; simpl. rewrite find_app_first.
    now destruct (find _ (users db)).
Qed.

(** X18. With one row per email, a login is decided by the digest alone: for
    the row registered under an email, [verify_user] returns the id, name
    and balance of that row when the digest of the password given is the one
    stored, and [None] otherwise. *)
Theorem login_checks_digest
  (db : Database) (email password : string) (r : user_row) :
  NoDup (map u_email (users db)) ->
  In r (users db) ->
  u_email r = email ->
  verify_user sha256_hexdigest db email password
  = if (u_password r =? sha256_hexdigest password)%string
    then Some (Trading.mk_session (u_id r) (u_name r) (u_balance r))
    else None.
Proof.
  unfold verify_user. intros Hnd Hin <-.
  induction (users db) as [|x l IH]; simpl; [destruct Hin|].
  inversion Hnd as [|? ? Hnotin Hrest]; subst.
  destruct Hin as [->|Hin].
  - rewrite String.eqb_refl. simpl.
    destruct (u_password r =? sha256_hexdigest password)%string; [reflexivity|].
    now rewrite (find_login_absent_email l (u_email r) password Hnotin).
  - destruct (u_email x =? u_email r)%string eqn:E.
    + exfalso. apply Hnotin. apply String.eqb_eq in E. rewrite E. now apply in_map.
    + simpl. now apply IH.
Qed.

(** X19. With one row per id, the dictionary a login returns is in step with
    the store: its balance is the balance of the row of its id. *)
Theorem login_session_in_sync
  (db : Database) (email password : string) (user : Trading.session_user) :
  NoDup (map u_id (users db)) ->
  verify_user sha256_hexdigest db email password = Some user ->
  session_in_sync db user.
Proof.
  unfold verify_user, session_in_sync, balance_of. intros Hnd.
  destruct (find _ (users db)) as [r|] eqn:E; [|discriminate].
  intros H. injection H as <-. simpl.
  apply find_some in E. destruct E as [Hin _].
  now rewrite (find_user_by_id _ _ Hnd Hin).
Qed.

End AccountProperties.

Lemma registered_user_can_log_in_witness :
  exists db' seq',
    add_user tagged_digest db_login 1 "Bob" "bob@example.com" "builder"
    = (db', seq', Some 2%Z) /\
    verify_user tagged_digest db' "bob@example.com" "builder"
    = Some (Trading.mk_session 2 "Bob" default_balance).
Proof.
  eexists. eexists. split; [reflexivity|].
  eapply (registered_user_can_log_in tagged_digest db_login _ 1 _ 2
           "Bob" "bob@example.com" "builder").
  reflexivity.
Defined.

Lemma add_user_keeps_accounts_consistent_witness :
  exists db' seq',
    add_user tagged_digest db_login 1 "Bob" "bob@example.com" "builder"
    = (db', seq', Some 2%Z) /\
    accounts_consistent db' seq' /\
    (forall user_id, Some 2%Z = Some user_id ->
       (1 < user_id)%Z /\
       ~ In user_id (map u_id (users db_login)) /\
       balance_of db' user_id = Some default_balance).
Proof.
  eexists. eexists. split; [reflexivity|].
  eapply (add_user_keeps_accounts_consistent tagged_digest db_login _ 1 _
           "Bob" "bob@example.com" "builder" (Some 2%Z)).
  - split; [|split]; simpl.
    + constructor; [intros [] | constructor].
    + constructor; [intros [] | constructor].
    + constructor; [apply Z.le_refl | constructor].
  - reflexivity.
Defined.

Lemma registration_keeps_logins_witness :
  exists db' seq',
    add_user tagged_digest db_login 1 "Bob" "bob@example.com" "builder"
    = (db', seq', Some 2%Z) /\
    verify_user tagged_digest db' "alice@example.com" "wonderland"
    = Some (Trading.mk_session 1 "Alice" default_balance).
Proof.
  eexists. eexists. split; [reflexivity|].
  eapply (registration_keeps_logins tagged_digest db_login _ 1 _
           "Bob" "bob@example.com" "builder" "alice@example.com" "wonderland"
           (Some 2%Z)).
  - reflexivity.
  - reflexivity.
Defined.

Lemma login_checks_digest_witness :
  verify_user tagged_digest db_login "alice@example.com" "looking-glass"
  = if (u_password alice_registered =? tagged_digest "looking-glass")%string
    then Some (Trading.mk_session (u_id alice_registered) (u_name alice_registered)
                                  (u_balance alice_registered))
    else None.
Proof.
  apply (login_checks_digest tagged_digest db_login "alice@example.com"
           "looking-glass" alice_registered).
  - simpl. repeat constructor. intros [].
  - simpl. left. reflexivity.
  - reflexivity.
Defined.

Lemma login_session_in_sync_witness :
  session_in_sync db_login (Trading.mk_session 1 "Alice" default_balance).
Proof.
  apply (login_session_in_sync tagged_digest db_login "alice@example.com"
           "wonderland").
  - simpl. repeat constructor. intros [].
  - reflexivity.
Defined.

(** X20. Orders keep the accounts consistent: an order, in either asset
    class and whatever it returns, changes no id and no email of [users], so
    a store with one row per email, one row per id and no id above the
    counter stays one. *)
Theorem orders_keep_accounts_consistent
  (c : asset_class) (db db' : Database) (sqlite_sequence user_id : Z)
  (symbol : string) (quantity price : Q) (is_buy ok : bool) :
  ledger c db user_id symbol quantity price is_buy = Returns db' ok ->
  accounts_consistent db sqlite_sequence ->
  accounts_consistent db' sqlite_sequence.
Proof.
  intros Hret Hacc. destruct c; cbn [ledger] in Hret.
  - destruct ok.
    + apply update_portfolio_true in Hret.
      destruct Hret as [mid [-> [Husers _]]].
      destruct Hacc as [Hemails [Hids Hseq]].
      unfold accounts_consistent, record_order, update_balance; simpl.
      rewrite Husers.
      rewrite !map_map_same_key
        by (intros u; now destruct (u_id u =? user_id)%Z).
      split; [exact Hemails|]. split; [exact Hids|].
      rewrite Forall_forall in *. intros u' Hin.
      apply in_map_iff in Hin. destruct Hin as [u [<- Hin]].
      specialize (Hseq u Hin). now destruct (u_id u =? user_id)%Z.
    + apply update_portfolio_false in Hret. now destruct Hret as [-> _].
  - apply update_crypto_portfolio_frame in Hret. destruct Hret as [Husers _].
    unfold accounts_consistent. now rewrite Husers.
Qed.

Lemma orders_keep_accounts_consistent_witness :
  exists db',
    ledger EQUITY db_two 2 "AAPL" 5 180 true = Returns db' true /\
    accounts_consistent db' 2.
Proof.
  eexists. split; [reflexivity|].
  apply (orders_keep_accounts_consistent EQUITY db_two _ 2 2 "AAPL" 5 180 true true).
  - reflexivity.
  - split; [|split]; simpl.
    + constructor; [intros [H|[]]; discriminate|].
      constructor; [intros [] | constructor].
    + constructor; [intros [H|[]]; discriminate|].
      constructor; [intros [] | constructor].
    + repeat constructor; discriminate.
Defined.

(** * The average cost over several buys *)

(** X21. What the equity method stores on a BUY into a held position is the
    price of the order plus the old average divided by the new quantity: with
    positive quantities and a positive old average, the stored average is
    strictly above the price just paid, whatever the earlier cost was. *)
Theorem equity_buy_average_exceeds_price
  (db : Database) (user_id : Z) (symbol : string) (quantity price q0 a0 : Q) :
  select_position db user_id symbol = Some (q0, a0) ->
  0 < q0 -> 0 < a0 -> 0 < quantity ->
  exists db' a1,
    update_portfolio db user_id symbol quantity price true = Returns db' true /\
    select_position db' user_id symbol = Some (q0 + quantity, a1) /\
    a1 == price + a0 / (q0 + quantity) /\
    price < a1.
Proof.
  intros Hsel Hq0 Ha0 Hq.
  assert (Hpos : 0 < q0 + quantity) by lra.
  assert (Hnz : ~ q0 + quantity == 0) by lra.
  destruct (equity_buy_average db user_id symbol quantity price q0 a0 Hsel Hnz)
    as [db' [Hret Hsel']].
  exists db'. eexists. split; [exact Hret|]. split; [exact Hsel'|].
  assert (Heq : (a0 + (q0 + quantity) * price) / (q0 + quantity)
                == price + a0 / (q0 + quantity)) by (field; exact Hnz).
  split; [exact Heq|]. rewrite Heq.
  assert (Hfrac : 0 < a0 / (q0 + quantity)).
  { unfold Qdiv. apply Qmult_lt_0_compat; [exact Ha0|].
    now apply Qinv_lt_0_compat. }
  lra.
Qed.

Lemma equity_buy_average_exceeds_price_witness :
  exists db' a1,
    update_portfolio db1 1 "AAPL" 5 180 true = Returns db' true /\
    select_position db' 1 "AAPL" = Some (10 + 5, a1) /\
    a1 == 180 + 150 / (10 + 5) /\
    180 < a1.
Proof.
  apply (equity_buy_average_exceeds_price db1 1 "AAPL" 5 180 10 150);
    reflexivity.
Defined.

Lemma crypto_buys_from_held (user_id : Z) (symbol : string) (orders : list order) :
  Forall (fun o => 0 < fst o) orders ->
  forall (db : Database) (q0 a0 : Q),
    select_crypto db user_id symbol = Some (q0, a0) ->
    0 < q0 ->
    exists db' q a,
      buy_all CRYPTO db user_id symbol orders = Returns db' true /\
      select_crypto db' user_id symbol = Some (q, a) /\
      q == q0 + total_quantity orders /\
      a * q == a0 * q0 + total_cost orders.
Proof.
  induction 1 as [|[quantity price] rest Hq _ IH]; intros db q0 a0 Hsel Hq0.
  - exists db, q0, a0. simpl. repeat split; [assumption | lra | lra].
  - simpl in Hq.
    assert (Hnz : ~ q0 + quantity == 0) by lra.
    assert (Hq1 : 0 < q0 + quantity) by lra.
    destruct (crypto_buy_average db user_id symbol quantity price q0 a0 Hsel Hnz)
      as [db1' [Hret Hsel1]].
    destruct (IH db1' _ _ Hsel1 Hq1) as [db' [q [a [Hrun [Hsel' [Hsum Hcost]]]]]].
    exists db', q, a. cbn [buy_all ledger]. rewrite Hret.
    split; [exact Hrun|]. split; [exact Hsel'|].
    assert (Hmul : (a0 * q0 + price * quantity) / (q0 + quantity) * (q0 + quantity)
                   == a0 * q0 + price * quantity) by (field; exact Hnz).
    simpl. split; [lra|]. rewrite Hcost, Hmul. ring.
Qed.

(** X22. Through the crypto method the stored average is the volume-weighted
    price of all that was bought: after any run of BUY orders of positive
    quantities, at least one, on a symbol the user did not hold, the quantity
    stored is the sum of the quantities and the average stored times that
    quantity is the sum of quantity * price over the orders. *)
Theorem crypto_buys_average_total_cost
  (db : Database) (user_id : Z) (symbol : string) (orders : list order) :
  select_crypto db user_id symbol = None ->
  Forall (fun o => 0 < fst o) orders ->
  orders <> [] ->
  exists db' q a,
    buy_all CRYPTO db user_id symbol orders = Returns db' true /\
    select_crypto db' user_id symbol = Some (q, a) /\
    q == total_quantity orders /\
    a * total_quantity orders == total_cost orders.
Proof.
  intros Hsel Hall Hne.
  destruct orders as [|[quantity price] rest]; [now contradiction Hne|].
  inversion Hall as [|? ? Hq Hrest]; subst. simpl in Hq.
  pose proof (update_crypto_buy_new db user_id symbol quantity price Hsel) as Hret.
  assert (Hsel1 : select_crypto (insert_crypto db user_id symbol quantity price)
                    user_id symbol = Some (quantity, price))
    by now apply select_insert_crypto.
  destruct (crypto_buys_from_held user_id symbol rest Hrest _ _ _ Hsel1 Hq)
    as [db' [q [a [Hrun [Hsel' [Hsum Hcost]]]]]].
  exists db', q, a. cbn [buy_all ledger]. rewrite Hret.
  split; [exact Hrun|]. split; [exact Hsel'|]. simpl.
  split; [exact Hsum|]. rewrite <- Hsum, Hcost. ring.
Qed.

Lemma crypto_buys_average_total_cost_witness :
  exists db' q a,
    buy_all CRYPTO db0 1 "BTC" [(10, 150); (5, 180); (1 # 2, 200)] = Returns db' true /\
    select_crypto db' 1 "BTC" = Some (q, a) /\
    q == total_quantity [(10, 150); (5, 180); (1 # 2, 200)] /\
    a * total_quantity [(10, 150); (5, 180); (1 # 2, 200)]
    == total_cost [(10, 150); (5, 180); (1 # 2, 200)].
Proof.
  apply (crypto_buys_average_total_cost db0 1 "BTC"
           [(10, 150); (5, 180); (1 # 2, 200)]).
  - reflexivity.
  - repeat constructor.
  - discriminate.
Defined.
